(** * Billboard compliance rule engine

    A shallow embedding of the rule-evaluation core of the billboard
    compliance backend:

    - [app/config/compliance_rules.py]: the enumerations, the rule records,
      [ComplianceConfig.get_applicable_rules] and [load_default_config];
    - [app/models.py]: the [ViolationType] enumeration;
    - [app/services/compliance_checker.py]: [ComplianceChecker].

    Python exceptions are values of [exn] carried on the left of a sum (the
    error monad of ExtLib); [float] is IEEE 754 binary64, as Python's is. *)

From Stdlib Require Import String Ascii List ZArith Bool Lia Floats DecimalString.
From ExtLib Require Import Structures.Monad Structures.MonadExc Data.Monads.EitherMonad.
Import ListNotations MonadNotation.
Local Open Scope monad_scope.
Local Open Scope string_scope.
Local Open Scope list_scope.

Set Implicit Arguments.
Set Warnings "-register-all".

(** ** Exceptions *)

Inductive exn : Type :=
| ValueError (value enum : string)      (* '<value>' is not a valid <enum> *)
| AttributeError (owner attr : string)  (* <owner> has no attribute <attr> *)
| TypeError (operation : string).       (* unsupported operand or receiver *)

(** A computation that returns an [A] or raises. *)
Definition py (A : Type) : Type := sum exn A.

#[export] Instance Monad_py : Monad py := Monad_either exn.
#[export] Instance Exception_py : MonadExc exn py := Exception_either exn.

(** ** Strings: [str.lower] and the substring test [sub in s] *)

(** A [string] is a Python [str] whose code points are all below 256, one
    character per code point. *)

Module Str.

(** The lower case of a code point below 256: [A]..[Z] (65..90) and the
    capital letters 192..222 other than the multiplication sign 215 go 32
    up; every other code point is its own lower case. *)
Definition lower_char (c : ascii) : ascii :=
  let n := nat_of_ascii c in
  if ((65 <=? n)%nat && (n <=? 90)%nat) ||
     ((192 <=? n)%nat && (n <=? 222)%nat && negb (n =? 215)%nat)
  then ascii_of_nat (n + 32) else c.

(** [s.lower()], character by character. *)
Fixpoint lower (s : string) : string :=
  match s with
  | EmptyString => EmptyString
  | String c s' => String (lower_char c) (lower s')
  end.

(** [sub in s] for two strings. *)
Fixpoint contains (sub s : string) : bool :=
  prefix sub s ||
  match s with
  | EmptyString => false
  | String _ s' => contains sub s'
  end.

(** [str(n)] for an integer. *)
Definition of_int (n : Z) : string := NilZero.string_of_int (Z.to_int n).

End Str.

(** ** Enumerations of [compliance_rules.py] *)

Inductive ZoneType : Type :=
| PROHIBITED | RESTRICTED | PERMITTED | HERITAGE
| RESIDENTIAL | COMMERCIAL | INDUSTRIAL.

Inductive BillboardType : Type :=
| UNIPOLES | GANTRY | WALL_MOUNTED | ROOFTOP
| KIOSK | BUS_SHELTER | DIGITAL | TRADITIONAL.

Module Zone.

Definition members : list ZoneType :=
  [PROHIBITED; RESTRICTED; PERMITTED; HERITAGE;
   RESIDENTIAL; COMMERCIAL; INDUSTRIAL].

Definition value (z : ZoneType) : string :=
  match z with
  | PROHIBITED => "prohibited"
  | RESTRICTED => "restricted"
  | PERMITTED => "permitted"
  | HERITAGE => "heritage"
  | RESIDENTIAL => "residential"
  | COMMERCIAL => "commercial"
  | INDUSTRIAL => "industrial"
  end.

Definition eq_dec (a b : ZoneType) : {a = b} + {a <> b}.
Proof. decide equality. Defined.

(** The member whose value is [s], if any. *)
Definition of_value (s : string) : option ZoneType :=
  find (fun z => String.eqb (value z) s) members.

(** [ZoneType(s)]: lookup by value, [ValueError] when there is none. *)
Definition call (s : string) : py ZoneType :=
  match of_value s with
  | Some z => ret z
  | None => raise (ValueError s "ZoneType")
  end.

(** [z in zones] *)
Definition mem (z : ZoneType) (zones : list ZoneType) : bool :=
  existsb (fun z' => if eq_dec z z' then true else false) zones.

End Zone.

Module BType.

Definition members : list BillboardType :=
  [UNIPOLES; GANTRY; WALL_MOUNTED; ROOFTOP;
   KIOSK; BUS_SHELTER; DIGITAL; TRADITIONAL].

Definition value (t : BillboardType) : string :=
  match t with
  | UNIPOLES => "unipoles"
  | GANTRY => "gantry"
  | WALL_MOUNTED => "wall_mounted"
  | ROOFTOP => "rooftop"
  | KIOSK => "kiosk"
  | BUS_SHELTER => "bus_shelter"
  | DIGITAL => "digital"
  | TRADITIONAL => "traditional"
  end.

Definition eq_dec (a b : BillboardType) : {a = b} + {a <> b}.
Proof. decide equality. Defined.

Definition of_value (s : string) : option BillboardType :=
  find (fun t => String.eqb (value t) s) members.

(** [BillboardType(s)] *)
Definition call (s : string) : py BillboardType :=
  match of_value s with
  | Some t => ret t
  | None => raise (ValueError s "BillboardType")
  end.

Definition mem (t : BillboardType) (types : list BillboardType) : bool :=
  existsb (fun t' => if eq_dec t t' then true else false) types.

End BType.

(** ** [ViolationType] of [models.py] *)

Inductive ViolationType : Type :=
| UNAUTHORIZED | SIZE_VIOLATION | LOCATION_VIOLATION
| STRUCTURAL_ISSUE | CONTENT_VIOLATION | EXPIRED_PERMIT.

Module VType.

Definition members : list ViolationType :=
  [UNAUTHORIZED; SIZE_VIOLATION; LOCATION_VIOLATION;
   STRUCTURAL_ISSUE; CONTENT_VIOLATION; EXPIRED_PERMIT].

(** The Python name of a member. *)
Definition name (v : ViolationType) : string :=
  match v with
  | UNAUTHORIZED => "UNAUTHORIZED"
  | SIZE_VIOLATION => "SIZE_VIOLATION"
  | LOCATION_VIOLATION => "LOCATION_VIOLATION"
  | STRUCTURAL_ISSUE => "STRUCTURAL_ISSUE"
  | CONTENT_VIOLATION => "CONTENT_VIOLATION"
  | EXPIRED_PERMIT => "EXPIRED_PERMIT"
  end.

(** Whether the enumeration has a member called [n]. *)
Definition has_member (n : string) : bool :=
  existsb (fun v => String.eqb (name v) n) members.

(** [ViolationType.<n>]: attribute access on the enumeration class,
    [AttributeError] when no member has that name. *)
Definition getattr (n : string) : py ViolationType :=
  match find (fun v => String.eqb (name v) n) members with
  | Some v => ret v
  | None => raise (AttributeError "ViolationType" n)
  end.

End VType.

(** ** Rule records of [compliance_rules.py] *)

Record ComplianceRule : Type := {
  rule_id : string;
  description : string;
  severity : string;
  applicable_zones : list ZoneType;
  applicable_billboard_types : list BillboardType
}.

Record SizeRestriction : Type := {
  size_base : ComplianceRule;
  max_width_meters : float;
  max_height_meters : float;
  max_area_sqm : float;
  min_ground_clearance : float
}.

Record LocationRestriction : Type := {
  location_base : ComplianceRule;
  min_distance_from_intersection : float;
  min_distance_from_pedestrian_path : float;
  min_distance_from_road : float;
  prohibited_nearby_places : list (string * float)
}.

Record ContentRestriction : Type := {
  content_base : ComplianceRule;
  prohibited_content : list string;
  required_elements : list string
}.

Record SafetyRequirement : Type := {
  safety_base : ComplianceRule;
  requires_structural_certificate : bool;
  max_wind_speed_rating : option float;
  required_illumination : option string;
  fire_safety_requirements : list string
}.

Record AdministrativeRequirement : Type := {
  administrative_base : ComplianceRule;
  requires_permit : bool;
  permit_renewal_years : Z;
  required_insurance : bool;
  tax_requirements : list string
}.

(** What the checker reads of a rule whatever its class: the name of the
    class ([rule.__class__.__name__]) and the inherited fields. *)
Class Rule (R : Type) : Type := {
  class_name : string;
  base : R -> ComplianceRule
}.
Arguments class_name R {_}.

#[export] Instance Rule_ComplianceRule : Rule ComplianceRule :=
  {| class_name := "ComplianceRule"; base := fun r => r |}.
#[export] Instance Rule_SizeRestriction : Rule SizeRestriction :=
  {| class_name := "SizeRestriction"; base := size_base |}.
#[export] Instance Rule_LocationRestriction : Rule LocationRestriction :=
  {| class_name := "LocationRestriction"; base := location_base |}.
#[export] Instance Rule_ContentRestriction : Rule ContentRestriction :=
  {| class_name := "ContentRestriction"; base := content_base |}.
#[export] Instance Rule_SafetyRequirement : Rule SafetyRequirement :=
  {| class_name := "SafetyRequirement"; base := safety_base |}.
#[export] Instance Rule_AdministrativeRequirement : Rule AdministrativeRequirement :=
  {| class_name := "AdministrativeRequirement"; base := administrative_base |}.

(** ** [ComplianceChecker._map_rule_to_violation_type] *)

Definition _map_rule_to_violation_type {R} `{Rule R} (rule : R) : py ViolationType :=
  let rule_name := Str.lower (class_name R) in
  if Str.contains "size" rule_name then VType.getattr "SIZE_VIOLATION"
  else if Str.contains "location" rule_name then VType.getattr "LOCATION_VIOLATION"
  else if Str.contains "content" rule_name then VType.getattr "CONTENT_VIOLATION"
  else if Str.contains "safety" rule_name then VType.getattr "SAFETY_VIOLATION"
  else VType.getattr "ADMINISTRATIVE_VIOLATION".

(** ** [ComplianceConfig] and rule selection *)

(** [size_restrictions] is a dict keyed by zone: an association list in
    insertion order, which is the order [values()] iterates in. *)
Record ComplianceConfig : Type := {
  jurisdiction : string;
  effective_date : string;
  size_restrictions : list (ZoneType * SizeRestriction);
  location_restrictions : list LocationRestriction;
  content_restrictions : list ContentRestriction;
  safety_requirements : list SafetyRequirement;
  administrative_requirements : list AdministrativeRequirement
}.

(** The keys of a dict are pairwise distinct. *)
Definition dict_keys_unique {K V} (d : list (K * V)) : Prop := NoDup (map fst d).

(** [d.values()] *)
Definition values {K V} (d : list (K * V)) : list V := map snd d.

(** The dict [get_applicable_rules] returns, one field per key. *)
Record ApplicableRules : Type := {
  size : list SizeRestriction;
  location : list LocationRestriction;
  content : list ContentRestriction;
  safety : list SafetyRequirement;
  administrative : list AdministrativeRequirement
}.

(** The local function [is_applicable] of [get_applicable_rules]. *)
Definition is_applicable {R} `{Rule R}
    (zone : ZoneType) (billboard_type : BillboardType) (rule : R) : bool :=
  Zone.mem zone (applicable_zones (base rule)) &&
  BType.mem billboard_type (applicable_billboard_types (base rule)).

Definition get_applicable_rules (self : ComplianceConfig)
    (zone : ZoneType) (billboard_type : BillboardType) : ApplicableRules :=
  {| size :=
       filter (is_applicable zone billboard_type) (values (size_restrictions self));
     location :=
       filter (is_applicable zone billboard_type) (location_restrictions self);
     content :=
       filter (is_applicable zone billboard_type) (content_restrictions self);
     safety :=
       filter (is_applicable zone billboard_type) (safety_requirements self);
     administrative :=
       filter (is_applicable zone billboard_type) (administrative_requirements self) |}.

(** Field defaults of the rule classes. *)
Definition default_prohibited_nearby_places : list (string * float) :=
  [("schools", 100%float); ("hospitals", 100%float);
   ("religious_places", 50%float); ("heritage_sites", 100%float)].

Definition default_required_elements : list string :=
  ["permit_number"; "owner_contact"; "validity_date"].

Definition load_default_config : ComplianceConfig :=
  {| jurisdiction := "Example City Municipal Corporation";
     effective_date := "2023-01-01";
     size_restrictions :=
       [(COMMERCIAL,
         {| size_base :=
              {| rule_id := "SIZE-COMM-001";
                 description := "Maximum size for commercial zone billboards";
                 severity := "high";
                 applicable_zones := [COMMERCIAL];
                 applicable_billboard_types := [UNIPOLES; GANTRY] |};
            max_width_meters := 12%float;
            max_height_meters := 4%float;
            max_area_sqm := 48%float;
            min_ground_clearance := 2.5%float |})];
     location_restrictions :=
       [{| location_base :=
             {| rule_id := "LOC-001";
                description := "Minimum distance from intersections";
                severity := "critical";
                applicable_zones := [PERMITTED; COMMERCIAL];
                applicable_billboard_types := [UNIPOLES; GANTRY] |};
           min_distance_from_intersection := 30%float;
           min_distance_from_pedestrian_path := 1%float;
           min_distance_from_road := 1%float;
           prohibited_nearby_places := default_prohibited_nearby_places |}];
     content_restrictions :=
       [{| content_base :=
             {| rule_id := "CONT-001";
                description := "Prohibited content";
                severity := "high";
                applicable_zones := Zone.members;
                applicable_billboard_types := BType.members |};
           prohibited_content :=
             ["obscene"; "defamatory"; "inciting_violence";
              "hate_speech"; "unauthorized_political"];
           required_elements := default_required_elements |}];
     safety_requirements :=
       [{| safety_base :=
             {| rule_id := "SAFE-001";
                description := "Structural safety requirements";
                severity := "critical";
                applicable_zones :=
                  filter (fun z => if Zone.eq_dec z PROHIBITED then false else true)
                         Zone.members;
                applicable_billboard_types := BType.members |};
           requires_structural_certificate := true;
           max_wind_speed_rating := Some 120%float;
           required_illumination := None;
           fire_safety_requirements := [] |}];
     administrative_requirements :=
       [{| administrative_base :=
             {| rule_id := "ADMIN-001";
                description := "Permit requirements";
                severity := "high";
                applicable_zones :=
                  filter (fun z => if Zone.eq_dec z PROHIBITED then false else true)
                         Zone.members;
                applicable_billboard_types := BType.members |};
           requires_permit := true;
           permit_renewal_years := 1;
           required_insurance := true;
           tax_requirements := [] |}] |}.

(** ** Inputs of an evaluation *)

(** Values of the [report_data] dict. A dict is an association list read by
    first match. *)
Inductive pyval : Type :=
| PNone
| PBool (b : bool)
| PInt (n : Z)
| PFloat (x : float)
| PStr (s : string)
| PList (items : list pyval)
| PDict (entries : list (string * pyval)).

(** [d.get(k)]: [None] when [k] is not a key of [d]. *)
Fixpoint lookup {V} (k : string) (d : list (string * V)) : option V :=
  match d with
  | [] => None
  | (k', v) :: d' => if String.eqb k k' then Some v else lookup k d'
  end.

(** [receiver.get(k, default)]: only a dict has [get]. *)
Definition py_get (receiver : pyval) (k : string) (default : pyval) : py pyval :=
  match receiver with
  | PDict d => ret (match lookup k d with Some v => v | None => default end)
  | _ => raise (AttributeError "object" "get")
  end.

(** [n < x] for an integer [n] and a float [x]: Python compares the exact
    values. A finite float is [m * 2^e], negated when [negative]; nothing is
    below a NaN. *)
Definition int_lt_float (n : Z) (x : float) : bool :=
  match Prim2SF x with
  | S754_zero _ => (n <? 0)%Z
  | S754_infinity negative => negb negative
  | S754_nan => false
  | S754_finite negative m e =>
      let mantissa := if negative then Z.neg m else Z.pos m in
      if (0 <=? e)%Z
      then (n <? mantissa * 2 ^ e)%Z
      else (n * 2 ^ (- e) <? mantissa)%Z
  end.

(** [v < bound] for a float [bound]: floats, integers and booleans compare
    with a float, anything else is a [TypeError]. *)
Definition py_lt_float (v : pyval) (bound : float) : py bool :=
  match v with
  | PFloat x => ret (PrimFloat.ltb x bound)
  | PInt n => ret (int_lt_float n bound)
  | PBool b => ret (PrimFloat.ltb (if b then 1%float else 0%float) bound)
  | _ => raise (TypeError "<")
  end.

(** [tag in container] for a string [tag]: equality with an element of a
    list, with a key of a dict, substring of a string; anything else is not
    iterable. *)
Definition py_in (tag : string) (container : pyval) : py bool :=
  match container with
  | PList items =>
      ret (existsb (fun v => match v with PStr s => String.eqb tag s | _ => false end)
                   items)
  | PDict d => ret (existsb (fun kv => String.eqb tag (fst kv)) d)
  | PStr s => ret (Str.contains tag s)
  | _ => raise (TypeError "in")
  end.

(** A calendar date as its day number, a [datetime] as a date and the time
    of day in microseconds. *)
Definition date : Type := Z.
Bind Scope Z_scope with date.

Record datetime : Type := {
  day : date;
  microsecond_of_day : Z
}.

(** The attributes of a billboard the checker reads: the snapshot is an
    object that carries them (of these, the class [Billboard] of [models.py]
    declares [id] and [permit_number] only). [permit_number] and
    [structural_certificate_id] are nullable; [permit_expiry_date] is probed
    with [hasattr]: [None] when the object has no such attribute, [Some None]
    when the attribute is there and holds [None]. *)
Record Billboard : Type := {
  id : Z;
  zone_type : string;
  billboard_type : string;
  width_meters : float;
  height_meters : float;
  permit_number : option string;
  structural_certificate_id : option string;
  permit_expiry_date : option (option date)
}.

(** [not v] for a nullable string: [None] and [""] are false values. *)
Definition py_not (v : option string) : bool :=
  match v with
  | None => true
  | Some s => String.eqb s ""
  end.

(** ** [ComplianceChecker] *)

(** The dict [_create_violation] builds. *)
Record Violation : Type := {
  violation_rule_id : string;
  violation_type : ViolationType;
  violation_severity : string;
  violation_message : string;
  violation_details : list (string * string)
}.

(** The dict [check_billboard_compliance] returns. *)
Record ComplianceResult : Type := {
  is_compliant : bool;
  violations : list Violation;
  checked_at : datetime;
  billboard_id : string
}.

(** The violation of type [t] for [rule] with [message]. *)
Definition violation_of {R} `{Rule R}
    (rule : R) (t : ViolationType) (message : string) : Violation :=
  {| violation_rule_id := rule_id (base rule);
     violation_type := t;
     violation_severity := severity (base rule);
     violation_message := message;
     violation_details := [("rule_description", description (base rule))] |}.

Definition _create_violation {R} `{Rule R} (rule : R) (message : string) : py Violation :=
  t <- _map_rule_to_violation_type rule ;;
  ret (violation_of rule t message).

(** [for x in xs: body], the loop state threaded through; an exception in
    the body leaves the loop. *)
Fixpoint for_each {A S} (xs : list A) (body : A -> S -> py S) (s : S) : py S :=
  match xs with
  | [] => ret s
  | x :: xs' => s' <- body x s ;; for_each xs' body s'
  end.

(** [if cond: violations.append(v)] *)
Definition append_if (cond : bool) (v : py Violation) (violations : list Violation)
    : py (list Violation) :=
  if cond then x <- v ;; ret (violations ++ [x]) else ret violations.

(** [a > b] on floats *)
Definition gt (a b : float) : bool := PrimFloat.ltb b a.

Definition _check_size (billboard : Billboard) (rules : list SizeRestriction)
    : py (list Violation) :=
  for_each rules (fun rule violations =>
    violations <-
      append_if (gt (width_meters billboard) (max_width_meters rule))
        (_create_violation rule "Width exceeds maximum allowed") violations ;;
    violations <-
      append_if (gt (height_meters billboard) (max_height_meters rule))
        (_create_violation rule "Height exceeds maximum allowed") violations ;;
    append_if
      (gt (width_meters billboard * height_meters billboard)%float (max_area_sqm rule))
      (_create_violation rule "Area exceeds maximum allowed") violations) [].

Definition _check_location (billboard : Billboard)
    (report_data : list (string * pyval)) (rules : list LocationRestriction)
    : py (list Violation) :=
  for_each rules (fun rule violations =>
    match lookup "location" report_data with
    | Some loc =>
        distance <- py_get loc "distance_from_intersection" (PFloat infinity) ;;
        too_close <- py_lt_float distance (min_distance_from_intersection rule) ;;
        append_if too_close (_create_violation rule "Too close to intersection")
          violations
    | None => ret violations
    end) [].

Definition _check_content (billboard : Billboard)
    (report_data : list (string * pyval)) (rules : list ContentRestriction)
    : py (list Violation) :=
  match lookup "content_analysis" report_data with
  | None => ret []
  | Some content =>
      for_each rules (fun rule violations =>
        for_each (prohibited_content rule) (fun prohibited violations =>
          detected <- py_get content "detected_content" (PDict []) ;;
          found <- py_in prohibited detected ;;
          append_if found
            (_create_violation rule ("Prohibited content: " ++ prohibited)%string)
            violations) violations) []
  end.

Definition _check_safety (billboard : Billboard) (rules : list SafetyRequirement)
    : py (list Violation) :=
  for_each rules (fun rule violations =>
    append_if
      (requires_structural_certificate rule &&
       py_not (structural_certificate_id billboard))
      (_create_violation rule "Missing structural certificate") violations) [].

(** [hasattr(billboard, 'permit_expiry_date') and
    billboard.permit_expiry_date < today] *)
Definition permit_expired (billboard : Billboard) (today : date) : py bool :=
  match permit_expiry_date billboard with
  | None => ret false
  | Some None => raise (TypeError "<")
  | Some (Some expiry) => ret (expiry <? today)%Z
  end.

(** [now] is what [datetime.utcnow()] returns during the call. *)
Definition _check_administrative (billboard : Billboard)
    (rules : list AdministrativeRequirement) (now : datetime)
    : py (list Violation) :=
  for_each rules (fun rule violations =>
    violations <-
      append_if (requires_permit rule && py_not (permit_number billboard))
        (_create_violation rule "Missing permit") violations ;;
    expired <- permit_expired billboard (day now) ;;
    append_if expired (_create_violation rule "Permit expired") violations) [].

(** A record written by [logger.error]: "Compliance check failed: " followed
    by the text of the exception. *)
Inductive LogRecord : Type :=
| ERROR (e : exn).

Record ComplianceChecker : Type := {
  config : ComplianceConfig;
  logger : list LogRecord
}.

(** The objects a call reaches: the checker it is a method of and the
    billboard it is given. *)
Record Objects : Type := {
  self : ComplianceChecker;
  billboard : Billboard
}.

(** The [try] block of [check_billboard_compliance]. *)
Definition check_billboard_compliance_try (self : ComplianceChecker)
    (billboard : Billboard) (report_data : list (string * pyval)) (now : datetime)
    : py ComplianceResult :=
  zone <- Zone.call (Str.lower (zone_type billboard)) ;;
  billboard_type <- BType.call (Str.lower (billboard_type billboard)) ;;
  let rules := get_applicable_rules (config self) zone billboard_type in
  let violations := [] in
  found <- _check_size billboard (size rules) ;;
  let violations := violations ++ found in
  found <- _check_location billboard report_data (location rules) ;;
  let violations := violations ++ found in
  found <- _check_content billboard report_data (content rules) ;;
  let violations := violations ++ found in
  found <- _check_safety billboard (safety rules) ;;
  let violations := violations ++ found in
  found <- _check_administrative billboard (administrative rules) now ;;
  let violations := violations ++ found in
  ret {| is_compliant := (length violations =? 0)%nat;
         violations := violations;
         checked_at := now;
         billboard_id := Str.of_int (id billboard) |}.

(** [self.logger.error(...)] *)
Definition log_error (e : exn) (o : Objects) : Objects :=
  {| self := {| config := config (self o);
                logger := logger (self o) ++ [ERROR e] |};
     billboard := billboard o |}.

(** [check_billboard_compliance]: the objects after the call and its
    outcome. [except Exception] logs the exception and raises it again. *)
Definition check_billboard_compliance (report_data : list (string * pyval))
    (now : datetime) (o : Objects) : Objects * py ComplianceResult :=
  match check_billboard_compliance_try (self o) (billboard o) report_data now with
  | inr result => (o, inr result)
  | inl e => (log_error e o, inl e)
  end.

(** * Vocabulary of the statements *)

(** The violations the spec gives for one size rule: one per exceeded
    limit, in the order width, height, area. *)
Definition size_violations (billboard : Billboard) (rule : SizeRestriction)
    : list Violation :=
  (if gt (width_meters billboard) (max_width_meters rule)
   then [violation_of rule SIZE_VIOLATION "Width exceeds maximum allowed"]
   else []) ++
  (if gt (height_meters billboard) (max_height_meters rule)
   then [violation_of rule SIZE_VIOLATION "Height exceeds maximum allowed"]
   else []) ++
  (if gt (width_meters billboard * height_meters billboard)%float (max_area_sqm rule)
   then [violation_of rule SIZE_VIOLATION "Area exceeds maximum allowed"]
   else []).

(** The rule and the billboards of the two size examples. *)
Definition example_size_rule (inherited : ComplianceRule) (clearance : float)
    : SizeRestriction :=
  {| size_base := inherited;
     max_width_meters := 12%float;
     max_height_meters := 4%float;
     max_area_sqm := 48%float;
     min_ground_clearance := clearance |}.

Definition resized (billboard : Billboard) (width height : float) : Billboard :=
  {| id := id billboard;
     zone_type := zone_type billboard;
     billboard_type := billboard_type billboard;
     width_meters := width;
     height_meters := height;
     permit_number := permit_number billboard;
     structural_certificate_id := structural_certificate_id billboard;
     permit_expiry_date := permit_expiry_date billboard |}.

(** [loc.get('distance_from_intersection', float('inf'))] on a dict. *)
Definition measured_distance (loc : list (string * pyval)) : pyval :=
  match lookup "distance_from_intersection" loc with
  | Some v => v
  | None => PFloat infinity
  end.

Definition too_close_violation (rule : LocationRestriction) : Violation :=
  violation_of rule LOCATION_VIOLATION "Too close to intersection".

Definition prohibited_violation (rule : ContentRestriction) (tag : string)
    : Violation :=
  violation_of rule CONTENT_VIOLATION ("Prohibited content: " ++ tag)%string.

(** [tag] is one of the detected [tags]. *)
Definition tag_detected (tags : list string) (tag : string) : bool :=
  existsb (String.eqb tag) tags.

(** The [content_analysis] dict carries the detected-content set [tags]:
    under [detected_content] as a collection of strings or as the keys of a
    dict, or, for the empty set, by having no such key. *)
Definition carries_detected (content : list (string * pyval)) (tags : list string)
    : Prop :=
  lookup "detected_content" content = Some (PList (map PStr tags)) \/
  (exists scored,
      lookup "detected_content" content = Some (PDict scored) /\
      tags = map fst scored) \/
  (lookup "detected_content" content = None /\ tags = []).

(** The violations the spec gives for one content rule: one per prohibited
    tag that is detected. *)
Definition content_violations (tags : list string) (rule : ContentRestriction)
    : list Violation :=
  map (prohibited_violation rule) (filter (tag_detected tags) (prohibited_content rule)).

(** The report context and the rule of the content example. *)
Definition example_content_report : list (string * pyval) :=
  [("content_analysis", PDict [("detected_content", PList [PStr "hate_speech"])])].

Definition example_content_rule (inherited : ComplianceRule) (required : list string)
    : ContentRestriction :=
  {| content_base := inherited;
     prohibited_content := ["hate_speech"; "obscene"];
     required_elements := required |}.

Definition ADMINISTRATIVE_VIOLATION_missing : exn :=
  AttributeError "ViolationType" "ADMINISTRATIVE_VIOLATION".

(** A billboard without a permit number, in the commercial zone. *)
Definition unpermitted_billboard : Billboard :=
  {| id := 1;
     zone_type := "commercial";
     billboard_type := "unipoles";
     width_meters := 10%float;
     height_meters := 3%float;
     permit_number := None;
     structural_certificate_id := Some "SC-1";
     permit_expiry_date := None |}.

(** Every size rule of [d] applies to no other zone than the one it is
    keyed by. *)
Definition keyed_by_own_zone (d : list (ZoneType * SizeRestriction)) : Prop :=
  forall key rule, In (key, rule) d ->
  forall zone, In zone (applicable_zones (size_base rule)) -> zone = key.

(** A size mapping whose second rule, keyed by the industrial zone, also
    applies to the commercial zone. *)
Definition shared_zone_size_rule (name : string) (zones : list ZoneType)
    : SizeRestriction :=
  {| size_base :=
       {| rule_id := name;
          description := "Maximum size";
          severity := "high";
          applicable_zones := zones;
          applicable_billboard_types := [UNIPOLES; GANTRY] |};
     max_width_meters := 12%float;
     max_height_meters := 4%float;
     max_area_sqm := 48%float;
     min_ground_clearance := 2.5%float |}.

Definition overlapping_size_config : ComplianceConfig :=
  {| jurisdiction := "Example City Municipal Corporation";
     effective_date := "2023-01-01";
     size_restrictions :=
       [(COMMERCIAL, shared_zone_size_rule "SIZE-COMM-001" [COMMERCIAL]);
        (INDUSTRIAL, shared_zone_size_rule "SIZE-IND-001" [COMMERCIAL; INDUSTRIAL])];
     location_restrictions := [];
     content_restrictions := [];
     safety_requirements := [];
     administrative_requirements := [] |}.

Definition error_of {A} (outcome : py A) : option exn :=
  match outcome with
  | inl e => Some e
  | inr _ => None
  end.

(** What each category check does on the selected rules, in the order the
    checker runs them: the exception it raises, if any. *)
Definition category_outcomes (billboard : Billboard)
    (report_data : list (string * pyval)) (now : datetime) (rules : ApplicableRules)
    : list (option exn) :=
  [error_of (_check_size billboard (size rules));
   error_of (_check_location billboard report_data (location rules));
   error_of (_check_content billboard report_data (content rules));
   error_of (_check_safety billboard (safety rules));
   error_of (_check_administrative billboard (administrative rules) now)].

Fixpoint first_raised (outcomes : list (option exn)) : option exn :=
  match outcomes with
  | [] => None
  | Some e :: _ => Some e
  | None :: rest => first_raised rest
  end.

(** A billboard of the commercial zone that breaks no rule of the default
    configuration. *)
Definition compliant_billboard : Billboard :=
  {| id := 1;
     zone_type := "commercial";
     billboard_type := "unipoles";
     width_meters := 10%float;
     height_meters := 3%float;
     permit_number := Some "P-1";
     structural_certificate_id := Some "SC-1";
     permit_expiry_date := None |}.

Definition default_checker : ComplianceChecker :=
  {| config := load_default_config; logger := [] |}.

Definition noon (d : date) : datetime :=
  {| day := d; microsecond_of_day := 43200000000%Z |}.

(** A report context whose [location] entry is a string, not a dict. *)
Definition malformed_location_report : list (string * pyval) :=
  [("location", PStr "12.5")].

(** The billboard with its classification strings replaced. *)
Definition reclassified (b : Billboard) (zone_string type_string : string)
    : Billboard :=
  {| id := id b;
     zone_type := zone_string;
     billboard_type := type_string;
     width_meters := width_meters b;
     height_meters := height_meters b;
     permit_number := permit_number b;
     structural_certificate_id := structural_certificate_id b;
     permit_expiry_date := permit_expiry_date b |}.

Definition with_billboard (o : Objects) (b : Billboard) : Objects :=
  {| self := self o; billboard := b |}.

(** What a call hands to its caller apart from the time stamp: the
    exception, or the violation list, the verdict and the billboard id. *)
Definition verdict (outcome : py ComplianceResult)
    : py (list Violation * bool * string) :=
  match outcome with
  | inl e => inl e
  | inr result => inr (violations result, is_compliant result, billboard_id result)
  end.

(** A compliant billboard whose permit expires on day 19000. *)
Definition expiring_billboard : Billboard :=
  {| id := 1;
     zone_type := "commercial";
     billboard_type := "unipoles";
     width_meters := 10%float;
     height_meters := 3%float;
     permit_number := Some "P-1";
     structural_certificate_id := Some "SC-1";
     permit_expiry_date := Some (Some 19000%Z) |}.

Definition measured_location_report : list (string * pyval) :=
  [("location", PDict [("distance_from_intersection", PFloat 12.5)])].

(** ** Vocabulary of the further properties *)

Definition SAFETY_VIOLATION_missing : exn :=
  AttributeError "ViolationType" "SAFETY_VIOLATION".

(** The test of [_check_safety] for one rule. *)
Definition lacks_certificate (billboard : Billboard) (rule : SafetyRequirement)
    : bool :=
  requires_structural_certificate rule &&
  py_not (structural_certificate_id billboard).

(** The first test of [_check_administrative] for one rule. *)
Definition lacks_permit (billboard : Billboard) (rule : AdministrativeRequirement)
    : bool :=
  requires_permit rule && py_not (permit_number billboard).

(** No limit of the size rule is exceeded. *)
Definition within_size_limits (billboard : Billboard) (rule : SizeRestriction)
    : bool :=
  negb (gt (width_meters billboard) (max_width_meters rule)) &&
  negb (gt (height_meters billboard) (max_height_meters rule)) &&
  negb (gt (width_meters billboard * height_meters billboard)%float
           (max_area_sqm rule)).

(** [v] is the violation dict of type [t] built for one of [rules]: rule id,
    severity and description copied from the rule. *)
Definition emitted_for {R} `{Rule R} (t : ViolationType) (rules : list R)
    (v : Violation) : Prop :=
  exists rule message, In rule rules /\ v = violation_of rule t message.

(** A value that is not a dict. *)
Definition is_dict (v : pyval) : bool :=
  match v with
  | PDict _ => true
  | _ => false
  end.

(** A value [<] compares with a float. *)
Definition is_number (v : pyval) : bool :=
  match v with
  | PFloat _ | PInt _ | PBool _ => true
  | _ => false
  end.

(** A billboard whose [permit_expiry_date] attribute holds [None]. *)
Definition undated_billboard : Billboard :=
  {| id := 1;
     zone_type := "commercial";
     billboard_type := "unipoles";
     width_meters := 10%float;
     height_meters := 3%float;
     permit_number := Some "P-1";
     structural_certificate_id := Some "SC-1";
     permit_expiry_date := Some None |}.

(** The rule lists at least one prohibited tag. *)
Definition prohibits_something (rule : ContentRestriction) : bool :=
  match prohibited_content rule with
  | [] => false
  | _ :: _ => true
  end.

(** The violations of one content rule when the detected content is the
    string [text]: one per prohibited tag that occurs in [text]. *)
Definition substring_violations (text : string) (rule : ContentRestriction)
    : list Violation :=
  map (prohibited_violation rule)
      (filter (fun tag => Str.contains tag text) (prohibited_content rule)).

(** ** The violation record of the spec *)

(** The record the spec gives for a violation of [rule]: the rule's
    identifier, the violation-type tag, the severity copied from the rule,
    the message, and a details payload that holds the rule's description. *)
Definition reported (rule : ComplianceRule) (t : ViolationType) (message : string)
    : Violation :=
  {| violation_rule_id := rule_id rule;
     violation_type := t;
     violation_severity := severity rule;
     violation_message := message;
     violation_details := [("rule_description", description rule)] |}.

(** The messages of the limits of [rule] the billboard exceeds, in the
    order width, height, area. *)
Definition exceeded_limits (billboard : Billboard) (rule : SizeRestriction)
    : list string :=
  (if gt (width_meters billboard) (max_width_meters rule)
   then ["Width exceeds maximum allowed"] else []) ++
  (if gt (height_meters billboard) (max_height_meters rule)
   then ["Height exceeds maximum allowed"] else []) ++
  (if gt (width_meters billboard * height_meters billboard)%float (max_area_sqm rule)
   then ["Area exceeds maximum allowed"] else []).

(** One record per exceeded limit of one size rule. *)
Definition expected_size_violations (billboard : Billboard) (rule : SizeRestriction)
    : list Violation :=
  map (reported (size_base rule) SIZE_VIOLATION) (exceeded_limits billboard rule).

(** One record per prohibited tag of one content rule that is among the
    detected [tags], its message naming the tag. *)
Definition expected_content_violations (tags : list string)
    (rule : ContentRestriction) : list Violation :=
  map (fun tag =>
         reported (content_base rule) CONTENT_VIOLATION
                  ("Prohibited content: " ++ tag)%string)
      (filter (tag_detected tags) (prohibited_content rule)).

(** [v] is the record of type [t] of one of [rules], with some message. *)
Definition reported_for {R} `{Rule R} (t : ViolationType) (rules : list R)
    (v : Violation) : Prop :=
  exists rule message, In rule rules /\ v = reported (base rule) t message.

(** A billboard that is too wide for the commercial zone, and a report that
    places it too close to an intersection and detects prohibited content. *)
Definition oversized_billboard : Billboard :=
  {| id := 7;
     zone_type := "Commercial";
     billboard_type := "GANTRY";
     width_meters := 15%float;
     height_meters := 3%float;
     permit_number := Some "P-7";
     structural_certificate_id := Some "SC-7";
     permit_expiry_date := None |}.

Definition full_report : list (string * pyval) :=
  [("location", PDict [("distance_from_intersection", PInt 29)]);
   ("content_analysis", PDict [("detected_content", PList [PStr "hate_speech"])])].

(** What the default configuration finds for that billboard and report. *)
Definition width_finding : Violation :=
  {| violation_rule_id := "SIZE-COMM-001";
     violation_type := SIZE_VIOLATION;
     violation_severity := "high";
     violation_message := "Width exceeds maximum allowed";
     violation_details :=
       [("rule_description", "Maximum size for commercial zone billboards")] |}.

Definition intersection_finding : Violation :=
  {| violation_rule_id := "LOC-001";
     violation_type := LOCATION_VIOLATION;
     violation_severity := "critical";
     violation_message := "Too close to intersection";
     violation_details :=
       [("rule_description", "Minimum distance from intersections")] |}.

Definition hate_speech_finding : Violation :=
  {| violation_rule_id := "CONT-001";
     violation_type := CONTENT_VIOLATION;
     violation_severity := "high";
     violation_message := "Prohibited content: hate_speech";
     violation_details := [("rule_description", "Prohibited content")] |}.

Definition full_report_violations : list Violation :=
  [width_finding; intersection_finding; hate_speech_finding].

Definition full_report_result : ComplianceResult :=
  {| is_compliant := false;
     violations := full_report_violations;
     checked_at := noon 19000;
     billboard_id := "7" |}.

(** The exception is the [ValueError] of an enumeration lookup. *)
Definition is_classification_error (e : exn) : bool :=
  match e with
  | ValueError _ _ => true
  | _ => false
  end.

(** * Properties *)

(** ** The error monad and the loops *)

Lemma bind_inr {A B} (a : A) (k : A -> py B) : bind (inr a : py A) k = k a.
Proof. reflexivity. Qed.

Lemma bind_ret {A B} (a : A) (k : A -> py B) : bind (ret a : py A) k = k a.
Proof. reflexivity. Qed.

Lemma bind_returns {A B} (c : py A) (k : A -> py B) (b : B) :
  bind c k = inr b -> exists a, c = inr a /\ k a = inr b.
Proof.
  destruct c as [e | a]; [discriminate | ].
  rewrite bind_inr. intros Hk. exists a. split; [reflexivity | exact Hk].
Qed.

(** A loop whose body appends [emitted x] to the list it threads returns
    the concatenation, in order. *)
Lemma for_each_appends {A V} (emitted : A -> list V)
    (body : A -> list V -> py (list V)) (xs : list A) :
  (forall x acc, In x xs -> body x acc = inr (acc ++ emitted x)) ->
  forall acc, for_each xs body acc = inr (acc ++ flat_map emitted xs).
Proof.
  induction xs as [ | x xs' IH]; intros Hbody acc; cbn [for_each].
  - rewrite app_nil_r. reflexivity.
  - rewrite (Hbody x acc (or_introl eq_refl)), bind_inr.
    rewrite IH by (intros y acc' Hy; apply Hbody; right; exact Hy).
    cbn [flat_map]. rewrite app_assoc. reflexivity.
Qed.

(** A property of the loop state that every iteration keeps holds when the
    loop returns. *)
Lemma for_each_invariant {A S} (P : S -> Prop) (body : A -> S -> py S) (xs : list A) :
  (forall x s s', In x xs -> P s -> body x s = inr s' -> P s') ->
  forall s s', P s -> for_each xs body s = inr s' -> P s'.
Proof.
  induction xs as [ | x xs' IH]; intros Hbody s s' Hs; cbn [for_each].
  - intros [= <-]. exact Hs.
  - intros Hrun. apply bind_returns in Hrun as (s1 & Hx & Hrest).
    apply (IH (fun y t t' Hy => Hbody y t t' (or_intror Hy)) s1 s'); [ | exact Hrest].
    exact (Hbody x s s1 (or_introl eq_refl) Hs Hx).
Qed.

(** The first iteration that raises ends the loop with its exception. *)
Lemma for_each_raises_first {A S} (body : A -> S -> py S) (x : A) (xs : list A)
    (s : S) (e : exn) :
  body x s = inl e -> for_each (x :: xs) body s = inl e.
Proof. intros Hx. cbn [for_each]. rewrite Hx. reflexivity. Qed.

Lemma append_if_false (v : py Violation) (acc : list Violation) :
  append_if false v acc = inr acc.
Proof. reflexivity. Qed.

(** ** What [_create_violation] does for each rule class *)

Lemma create_violation_size (rule : SizeRestriction) (message : string) :
  _create_violation rule message = inr (violation_of rule SIZE_VIOLATION message).
Proof. reflexivity. Qed.

Lemma create_violation_location (rule : LocationRestriction) (message : string) :
  _create_violation rule message = inr (violation_of rule LOCATION_VIOLATION message).
Proof. reflexivity. Qed.

Lemma create_violation_content (rule : ContentRestriction) (message : string) :
  _create_violation rule message = inr (violation_of rule CONTENT_VIOLATION message).
Proof. reflexivity. Qed.

Lemma create_violation_safety (rule : SafetyRequirement) (message : string) :
  _create_violation rule message =
  inl (AttributeError "ViolationType" "SAFETY_VIOLATION").
Proof. reflexivity. Qed.

Lemma create_violation_administrative (rule : AdministrativeRequirement)
    (message : string) :
  _create_violation rule message =
  inl (AttributeError "ViolationType" "ADMINISTRATIVE_VIOLATION").
Proof. reflexivity. Qed.

(** ** The violation classifier *)

(** C1. The classifier returns SIZE_VIOLATION, LOCATION_VIOLATION and
    CONTENT_VIOLATION for size, location and content rules. For a safety
    rule it reads [ViolationType.SAFETY_VIOLATION] and for any other rule
    [ViolationType.ADMINISTRATIVE_VIOLATION]: the enumeration has no member
    of either name, so the classifier raises [AttributeError] there instead
    of returning a tag. *)
Theorem map_rule_to_violation_type_cases :
  (forall rule : SizeRestriction,
      _map_rule_to_violation_type rule = inr SIZE_VIOLATION) /\
  (forall rule : LocationRestriction,
      _map_rule_to_violation_type rule = inr LOCATION_VIOLATION) /\
  (forall rule : ContentRestriction,
      _map_rule_to_violation_type rule = inr CONTENT_VIOLATION) /\
  (forall rule : SafetyRequirement,
      _map_rule_to_violation_type rule =
      inl (AttributeError "ViolationType" "SAFETY_VIOLATION")) /\
  (forall rule : AdministrativeRequirement,
      _map_rule_to_violation_type rule =
      inl (AttributeError "ViolationType" "ADMINISTRATIVE_VIOLATION")) /\
  (forall rule : ComplianceRule,
      _map_rule_to_violation_type rule =
      inl (AttributeError "ViolationType" "ADMINISTRATIVE_VIOLATION")) /\
  VType.has_member "SAFETY_VIOLATION" = false /\
  VType.has_member "ADMINISTRATIVE_VIOLATION" = false.
Proof. repeat split. Qed.

(** ** The size check *)

Lemma check_size_returns (billboard : Billboard) (rules : list SizeRestriction) :
  _check_size billboard rules = inr (flat_map (size_violations billboard) rules).
Proof.
  unfold _check_size.
  rewrite (for_each_appends (size_violations billboard)); [reflexivity | ].
  intros rule acc _. unfold size_violations.
  rewrite !create_violation_size.
  destruct (gt (width_meters billboard) (max_width_meters rule)),
           (gt (height_meters billboard) (max_height_meters rule)),
           (gt (width_meters billboard * height_meters billboard)
               (max_area_sqm rule));
    cbn; rewrite <- ?app_assoc, ?app_nil_r; reflexivity.
Qed.

Lemma size_violations_expected (billboard : Billboard) (rule : SizeRestriction) :
  size_violations billboard rule = expected_size_violations billboard rule.
Proof.
  unfold size_violations, expected_size_violations, exceeded_limits.
  destruct (gt (width_meters billboard) (max_width_meters rule)),
           (gt (height_meters billboard) (max_height_meters rule)),
           (gt (width_meters billboard * height_meters billboard)
               (max_area_sqm rule));
    reflexivity.
Qed.

(** C5. For every billboard and list of size rules the size check returns,
    rule by rule, one violation record per exceeded limit among width,
    height and area (up to three for a rule): the rule's id, the type
    SIZE_VIOLATION, the rule's severity, the message of the limit and the
    rule's description. A 15 by 3 billboard against the limits 12, 4 and 48
    gets exactly one violation, with the message "Width exceeds maximum
    allowed"; a 13 by 5 billboard gets exactly three, for width, height and
    area. *)
Theorem check_size_one_violation_per_exceeded_limit :
  (forall billboard rules,
      _check_size billboard rules =
      inr (flat_map (expected_size_violations billboard) rules)) /\
  (forall billboard inherited clearance,
      _check_size (resized billboard 15 3) [example_size_rule inherited clearance] =
      inr [{| violation_rule_id := rule_id inherited;
              violation_type := SIZE_VIOLATION;
              violation_severity := severity inherited;
              violation_message := "Width exceeds maximum allowed";
              violation_details :=
                [("rule_description", description inherited)] |}]) /\
  (forall billboard inherited clearance,
      _check_size (resized billboard 13 5) [example_size_rule inherited clearance] =
      inr [{| violation_rule_id := rule_id inherited;
              violation_type := SIZE_VIOLATION;
              violation_severity := severity inherited;
              violation_message := "Width exceeds maximum allowed";
              violation_details :=
                [("rule_description", description inherited)] |};
           {| violation_rule_id := rule_id inherited;
              violation_type := SIZE_VIOLATION;
              violation_severity := severity inherited;
              violation_message := "Height exceeds maximum allowed";
              violation_details :=
                [("rule_description", description inherited)] |};
           {| violation_rule_id := rule_id inherited;
              violation_type := SIZE_VIOLATION;
              violation_severity := severity inherited;
              violation_message := "Area exceeds maximum allowed";
              violation_details :=
                [("rule_description", description inherited)] |}]).
Proof.
  split.
  - intros billboard rules. rewrite check_size_returns. f_equal.
    induction rules as [ | rule rules' IH]; [reflexivity | ].
    cbn [flat_map]. rewrite IH, size_violations_expected. reflexivity.
  - split; intros billboard inherited clearance;
      rewrite check_size_returns; reflexivity.
Qed.

(** ** The location check *)

Lemma flat_map_singleton_if {A B} (p : A -> bool) (f : A -> B) (xs : list A) :
  flat_map (fun x => if p x then [f x] else []) xs = map f (filter p xs).
Proof.
  induction xs as [ | x xs' IH]; [reflexivity | ].
  cbn [flat_map filter]. rewrite IH. destruct (p x); reflexivity.
Qed.


Lemma check_location_with_entry (billboard : Billboard)
    (report_data loc : list (string * pyval)) (distance : float)
    (rules : list LocationRestriction) :
  lookup "location" report_data = Some (PDict loc) ->
  measured_distance loc = PFloat distance ->
  _check_location billboard report_data rules =
  inr (map too_close_violation
         (filter (fun rule =>
                    PrimFloat.ltb distance (min_distance_from_intersection rule))
                 rules)).
Proof.
  intros Hloc Hdist. unfold _check_location.
  rewrite <- flat_map_singleton_if.
  rewrite (for_each_appends
             (fun rule =>
                if PrimFloat.ltb distance (min_distance_from_intersection rule)
                then [too_close_violation rule] else [])); [reflexivity | ].
  intros rule acc _. rewrite Hloc. unfold py_get. fold (measured_distance loc).
  rewrite Hdist, bind_ret. unfold py_lt_float. rewrite bind_ret.
  rewrite create_violation_location.
  destruct (PrimFloat.ltb distance (min_distance_from_intersection rule)).
  - reflexivity.
  - rewrite app_nil_r. reflexivity.
Qed.

(** ** Checks that cannot emit: safety and administrative *)

Lemma append_if_raising_keeps (cond : bool) (e : exn) (acc acc' : list Violation) :
  append_if cond (inl e) acc = inr acc' -> acc' = acc.
Proof. destruct cond; [discriminate | intros [= <-]; reflexivity]. Qed.

Lemma check_safety_returns_nil (billboard : Billboard)
    (rules : list SafetyRequirement) (found : list Violation) :
  _check_safety billboard rules = inr found -> found = [].
Proof.
  unfold _check_safety.
  apply (for_each_invariant (fun acc => acc = [])); [ | reflexivity].
  intros rule acc acc' _ -> Hbody. rewrite create_violation_safety in Hbody.
  exact (append_if_raising_keeps _ _ _ Hbody).
Qed.

Lemma check_administrative_returns_nil (billboard : Billboard)
    (rules : list AdministrativeRequirement) (now : datetime)
    (found : list Violation) :
  _check_administrative billboard rules now = inr found -> found = [].
Proof.
  unfold _check_administrative.
  apply (for_each_invariant (fun acc => acc = [])); [ | reflexivity].
  intros rule acc acc' _ -> Hbody. rewrite !create_violation_administrative in Hbody.
  apply bind_returns in Hbody as (acc1 & Hmissing & Hbody).
  apply append_if_raising_keeps in Hmissing as ->.
  apply bind_returns in Hbody as (expired & _ & Hexpired).
  exact (append_if_raising_keeps _ _ _ Hexpired).
Qed.

(** ** Types of the violations a call returns *)



(** What a returning call went through: both classifications succeeded and
    every category check returned. *)
Lemma check_billboard_compliance_returns (report_data : list (string * pyval))
    (now : datetime) (o : Objects) (result : ComplianceResult) :
  snd (check_billboard_compliance report_data now o) = inr result ->
  exists zone btype in_size in_location in_content,
    Zone.call (Str.lower (zone_type (billboard o))) = inr zone /\
    BType.call (Str.lower (billboard_type (billboard o))) = inr btype /\
    let rules := get_applicable_rules (config (self o)) zone btype in
    _check_size (billboard o) (size rules) = inr in_size /\
    _check_location (billboard o) report_data (location rules) = inr in_location /\
    _check_content (billboard o) report_data (content rules) = inr in_content /\
    _check_safety (billboard o) (safety rules) = inr [] /\
    _check_administrative (billboard o) (administrative rules) now = inr [] /\
    violations result = in_size ++ in_location ++ in_content.
Proof.
  unfold check_billboard_compliance.
  destruct (check_billboard_compliance_try (self o) (billboard o) report_data now)
    as [e | r] eqn:Htry; cbn [snd]; [discriminate | ].
  intros [= ->]. unfold check_billboard_compliance_try in Htry.
  apply bind_returns in Htry as (zone & Hzone & Htry).
  apply bind_returns in Htry as (btype & Hbtype & Htry).
  apply bind_returns in Htry as (in_size & Hsize & Htry).
  apply bind_returns in Htry as (in_location & Hlocation & Htry).
  apply bind_returns in Htry as (in_content & Hcontent & Htry).
  apply bind_returns in Htry as (in_safety & Hsafety & Htry).
  apply bind_returns in Htry as (in_admin & Hadmin & Htry).
  pose proof (check_safety_returns_nil _ _ Hsafety) as ->.
  pose proof (check_administrative_returns_nil _ _ _ Hadmin) as ->.
  exists zone, btype, in_size, in_location, in_content.
  repeat (split; [assumption | ]).
  injection Htry as <-. cbn [violations].
  rewrite !app_nil_r, <- app_assoc. reflexivity.
Qed.


(** ** The content check *)

Lemma existsb_tag_strings (tag : string) (tags : list string) :
  existsb (fun v => match v with PStr s => String.eqb tag s | _ => false end)
          (map PStr tags) = tag_detected tags tag.
Proof.
  unfold tag_detected. induction tags as [ | t ts IH]; [reflexivity | ].
  cbn [map existsb]. rewrite IH. reflexivity.
Qed.

Lemma existsb_tag_keys (tag : string) (scored : list (string * pyval)) :
  existsb (fun kv => String.eqb tag (fst kv)) scored =
  tag_detected (map fst scored) tag.
Proof.
  unfold tag_detected. induction scored as [ | kv rest IH]; [reflexivity | ].
  cbn [map existsb]. rewrite IH. reflexivity.
Qed.

Lemma py_in_detected (content : list (string * pyval)) (tags : list string)
    (tag : string) :
  carries_detected content tags ->
  exists detected,
    py_get (PDict content) "detected_content" (PDict []) = inr detected /\
    py_in tag detected = inr (tag_detected tags tag).
Proof.
  intros [Hlist | [(scored & Hdict & ->) | [Hnone ->]]]; unfold py_get.
  - rewrite Hlist. eexists. split; [reflexivity | ].
    unfold py_in. rewrite existsb_tag_strings. reflexivity.
  - rewrite Hdict. eexists. split; [reflexivity | ].
    unfold py_in. rewrite existsb_tag_keys. reflexivity.
  - rewrite Hnone. eexists. split; reflexivity.
Qed.

Lemma check_content_returns (billboard : Billboard)
    (report_data content : list (string * pyval)) (tags : list string)
    (rules : list ContentRestriction) :
  lookup "content_analysis" report_data = Some (PDict content) ->
  carries_detected content tags ->
  _check_content billboard report_data rules =
  inr (flat_map (content_violations tags) rules).
Proof.
  intros Hcontent Htags. unfold _check_content. rewrite Hcontent.
  rewrite (for_each_appends (content_violations tags)); [reflexivity | ].
  intros rule acc _. unfold content_violations.
  rewrite <- flat_map_singleton_if. apply for_each_appends.
  intros tag acc' _.
  destruct (py_in_detected tag Htags) as (detected & Hget & Hin).
  rewrite Hget, bind_inr, Hin, bind_inr, create_violation_content.
  destruct (tag_detected tags tag); [reflexivity | ].
  rewrite app_nil_r. reflexivity.
Qed.

(** C7. For every report context whose [content_analysis] entry carries a
    detected-content set, the content check returns, rule by rule, one
    violation record per prohibited tag of the rule that is in the set: the
    rule's id, the type CONTENT_VIOLATION, the rule's severity, the message
    "Prohibited content: <tag>" and the rule's description. The set
    {hate_speech} against the prohibited tags [hate_speech, obscene] gives
    exactly one violation, whose message is "Prohibited content:
    hate_speech". *)
Theorem check_content_one_violation_per_matched_tag :
  (forall billboard report_data content tags rules,
      lookup "content_analysis" report_data = Some (PDict content) ->
      carries_detected content tags ->
      _check_content billboard report_data rules =
      inr (flat_map (expected_content_violations tags) rules)) /\
  (forall billboard inherited required,
      _check_content billboard example_content_report
        [example_content_rule inherited required] =
      inr [{| violation_rule_id := rule_id inherited;
              violation_type := CONTENT_VIOLATION;
              violation_severity := severity inherited;
              violation_message := "Prohibited content: hate_speech";
              violation_details :=
                [("rule_description", description inherited)] |}]).
Proof.
  split.
  - intros billboard report_data content tags rules Hentry Htags.
    rewrite (@check_content_returns billboard report_data content tags rules
               Hentry Htags).
    reflexivity.
  - intros billboard inherited required. reflexivity.
Qed.

(** ** The administrative check *)

(** C6. The administrative check never returns a violation: whenever it
    returns, its list is empty. Where a rule requires a permit and the
    billboard has none, and where the permit has expired, the check raises
    [AttributeError] while building the violation, the classifier reading
    [ViolationType.ADMINISTRATIVE_VIOLATION]. So does the default
    ADMIN-001 rule on a billboard without a permit number. *)
Theorem check_administrative_raises_instead_of_emitting :
  (forall billboard rules now found,
      _check_administrative billboard rules now = inr found -> found = []) /\
  (forall billboard rule rules now,
      requires_permit rule = true ->
      py_not (permit_number billboard) = true ->
      _check_administrative billboard (rule :: rules) now =
      inl ADMINISTRATIVE_VIOLATION_missing) /\
  (forall billboard rule rules now expiry,
      requires_permit rule && py_not (permit_number billboard) = false ->
      permit_expiry_date billboard = Some (Some expiry) ->
      (expiry < day now)%Z ->
      _check_administrative billboard (rule :: rules) now =
      inl ADMINISTRATIVE_VIOLATION_missing) /\
  (forall now,
      _check_administrative unpermitted_billboard
        (administrative_requirements load_default_config) now =
      inl ADMINISTRATIVE_VIOLATION_missing).
Proof.
  split; [exact check_administrative_returns_nil | ].
  split; [ | split].
  - intros billboard rule rules now Hrequired Hnone.
    apply for_each_raises_first. rewrite Hrequired, Hnone. reflexivity.
  - intros billboard rule rules now expiry Hpermit Hexpiry Hbefore.
    apply for_each_raises_first. rewrite Hpermit, append_if_false, bind_inr.
    unfold permit_expired. rewrite Hexpiry, bind_ret.
    apply Z.ltb_lt in Hbefore. rewrite Hbefore. reflexivity.
  - intros now. reflexivity.
Qed.

(** ** Rule selection: the size category *)

Lemma Zone_mem_In (zone : ZoneType) (zones : list ZoneType) :
  Zone.mem zone zones = true -> In zone zones.
Proof.
  unfold Zone.mem. intros Hmem.
  apply existsb_exists in Hmem as (z & Hz & Heq).
  destruct (Zone.eq_dec zone z) as [-> | ]; [exact Hz | discriminate].
Qed.

Lemma keyed_by_own_zone_tail (entry : ZoneType * SizeRestriction)
    (d : list (ZoneType * SizeRestriction)) :
  keyed_by_own_zone (entry :: d) -> keyed_by_own_zone d.
Proof. intros Hkeyed key rule Hin. apply (Hkeyed key rule). right. exact Hin. Qed.

(** No entry under another key than [zone] is selected for [zone]. *)
Lemma other_keys_not_selected (zone : ZoneType) (btype : BillboardType)
    (d : list (ZoneType * SizeRestriction)) :
  keyed_by_own_zone d -> ~ In zone (map fst d) ->
  filter (is_applicable zone btype) (values d) = [].
Proof.
  induction d as [ | [key rule] d' IH]; intros Hkeyed Hfresh; [reflexivity | ].
  cbn [values map snd filter].
  destruct (is_applicable zone btype rule) eqn:Happ.
  - exfalso. apply Hfresh. left. cbn [fst]. symmetry.
    apply (Hkeyed key rule (or_introl eq_refl)).
    unfold is_applicable in Happ. apply andb_true_iff in Happ as [Hzone _].
    exact (Zone_mem_In _ _ Hzone).
  - apply IH; [exact (keyed_by_own_zone_tail Hkeyed) | ].
    intros Hin. apply Hfresh. right. exact Hin.
Qed.

Lemma keyed_selection_at_most_one (zone : ZoneType) (btype : BillboardType)
    (d : list (ZoneType * SizeRestriction)) :
  dict_keys_unique d -> keyed_by_own_zone d ->
  length (filter (is_applicable zone btype) (values d)) <= 1.
Proof.
  unfold dict_keys_unique.
  induction d as [ | [key rule] d' IH]; intros Hunique Hkeyed; [cbn; lia | ].
  cbn [map fst] in Hunique. apply NoDup_cons_iff in Hunique as [Hfresh Hunique].
  cbn [values map snd filter].
  destruct (is_applicable zone btype rule) eqn:Happ.
  - assert (zone = key) as ->.
    { apply (Hkeyed key rule (or_introl eq_refl)).
      unfold is_applicable in Happ. apply andb_true_iff in Happ as [Hzone _].
      exact (Zone_mem_In _ _ Hzone). }
    fold (values d').
    rewrite (other_keys_not_selected key btype (keyed_by_own_zone_tail Hkeyed) Hfresh).
    cbn. lia.
  - exact (IH Hunique (keyed_by_own_zone_tail Hkeyed)).
Qed.

(** C4, as stated, fails: the size mapping has one rule per key, yet the
    selection filters its values by each rule's own applicable zones, so two
    rules under different keys are both selected for the commercial zone. *)
Lemma size_selection_two_rules_for_one_zone :
  dict_keys_unique (size_restrictions overlapping_size_config) /\
  length (size (get_applicable_rules overlapping_size_config COMMERCIAL UNIPOLES)) = 2.
Proof.
  split; [ | reflexivity].
  unfold dict_keys_unique. cbn.
  repeat constructor; cbn; intuition discriminate.
Qed.

(** C4, amended. The size category of the selection is the list of the
    applicable values of the size mapping, in the mapping's order; it holds
    at most one rule when every size rule applies to no other zone than the
    one it is keyed by. *)
Theorem size_selection_at_most_one_when_keyed_by_own_zone
    (cfg : ComplianceConfig) (zone : ZoneType) (btype : BillboardType) :
  dict_keys_unique (size_restrictions cfg) ->
  keyed_by_own_zone (size_restrictions cfg) ->
  size (get_applicable_rules cfg zone btype) =
    filter (is_applicable zone btype) (values (size_restrictions cfg)) /\
  length (size (get_applicable_rules cfg zone btype)) <= 1.
Proof.
  intros Hunique Hkeyed. split; [reflexivity | ].
  exact (keyed_selection_at_most_one zone btype Hunique Hkeyed).
Qed.

Lemma size_selection_at_most_one_default :
  size (get_applicable_rules load_default_config COMMERCIAL GANTRY) =
    filter (is_applicable COMMERCIAL GANTRY)
           (values (size_restrictions load_default_config)) /\
  length (size (get_applicable_rules load_default_config COMMERCIAL GANTRY)) <= 1.
Proof.
  apply (size_selection_at_most_one_when_keyed_by_own_zone
           load_default_config COMMERCIAL GANTRY).
  - unfold dict_keys_unique. cbn. repeat constructor. intros [].
  - intros key rule [[= <- <-] | []] zone [<- | []]. reflexivity.
Defined.

(** ** Exceptions during an evaluation *)

(** C2, as stated, fails: with a recognized zone and type, the location
    check raises on a [location] entry that is not a dict; the exception is
    logged and raised again, and the call returns no result. *)
Lemma category_exception_is_not_recovered :
  let o := {| self := default_checker; billboard := compliant_billboard |} in
  let e := AttributeError "object" "get" in
  Zone.call (Str.lower (zone_type (billboard o))) = inr COMMERCIAL /\
  BType.call (Str.lower (billboard_type (billboard o))) = inr UNIPOLES /\
  _check_location (billboard o) malformed_location_report
    (location (get_applicable_rules (config (self o)) COMMERCIAL UNIPOLES)) = inl e /\
  check_billboard_compliance malformed_location_report (noon 19000) o =
    (log_error e o, inl e) /\
  (forall result,
      snd (check_billboard_compliance malformed_location_report (noon 19000) o)
      <> inr result).
Proof.
  cbv zeta. repeat split. intros result. discriminate.
Qed.

(** C2, amended. With a recognized zone and type, an exception raised by a
    category check is not recovered: the call logs the exception of the
    first category that raises, raises it again and returns no result. *)
Theorem category_exception_fails_the_evaluation
    (report_data : list (string * pyval)) (now : datetime) (o : Objects)
    (zone : ZoneType) (btype : BillboardType) (e : exn) :
  Zone.call (Str.lower (zone_type (billboard o))) = inr zone ->
  BType.call (Str.lower (billboard_type (billboard o))) = inr btype ->
  In (Some e)
     (category_outcomes (billboard o) report_data now
        (get_applicable_rules (config (self o)) zone btype)) ->
  exists first,
    first_raised
      (category_outcomes (billboard o) report_data now
         (get_applicable_rules (config (self o)) zone btype)) = Some first /\
    check_billboard_compliance report_data now o = (log_error first o, inl first).
Proof.
  intros Hzone Hbtype Hraised.
  unfold check_billboard_compliance, check_billboard_compliance_try.
  rewrite Hzone, bind_inr, Hbtype, bind_inr. cbv zeta.
  unfold category_outcomes in *.
  set (rules := get_applicable_rules (config (self o)) zone btype) in *.
  destruct (_check_size (billboard o) (size rules)) as [e1 | v1];
    [exists e1; split; reflexivity | rewrite bind_inr].
  destruct (_check_location (billboard o) report_data (location rules)) as [e2 | v2];
    [exists e2; split; reflexivity | rewrite bind_inr].
  destruct (_check_content (billboard o) report_data (content rules)) as [e3 | v3];
    [exists e3; split; reflexivity | rewrite bind_inr].
  destruct (_check_safety (billboard o) (safety rules)) as [e4 | v4];
    [exists e4; split; reflexivity | rewrite bind_inr].
  destruct (_check_administrative (billboard o) (administrative rules) now)
    as [e5 | v5]; [exists e5; split; reflexivity | ].
  exfalso. cbn in Hraised. intuition discriminate.
Qed.

Lemma category_exception_fails_the_evaluation_witness :
  let o := {| self := default_checker; billboard := compliant_billboard |} in
  exists first,
    first_raised
      (category_outcomes (billboard o) malformed_location_report (noon 19000)
         (get_applicable_rules (config (self o)) COMMERCIAL UNIPOLES)) = Some first /\
    check_billboard_compliance malformed_location_report (noon 19000) o =
      (log_error first o, inl first).
Proof.
  cbv zeta.
  apply (@category_exception_fails_the_evaluation malformed_location_report
           (noon 19000)
           {| self := default_checker; billboard := compliant_billboard |}
           COMMERCIAL UNIPOLES (AttributeError "object" "get")).
  - reflexivity.
  - reflexivity.
  - vm_compute. right. left. reflexivity.
Defined.

(** ** Classification of the billboard *)

(** C3, as stated, fails: "Commercial" is not a value of the zone
    enumeration, yet the call lowers the string before the lookup and
    returns a result, here a compliant one. *)
Lemma capitalized_zone_is_accepted :
  let b := reclassified compliant_billboard "Commercial" "unipoles" in
  let o := {| self := default_checker; billboard := b |} in
  Zone.of_value (zone_type b) = None /\
  check_billboard_compliance [] (noon 19000) o =
    (o, inr {| is_compliant := true;
               violations := [];
               checked_at := noon 19000;
               billboard_id := "1" |}).
Proof. cbv zeta. split; reflexivity. Qed.

(** C3, amended. For every billboard whose lower-cased zone string or
    lower-cased billboard-type string is not a value of the respective
    enumeration, the call fails with the [ValueError] of the lookup: for the
    zone, it carries the lower-cased zone string and the name ZoneType; for
    the type, once the zone is recognized, the lower-cased type string and
    the name BillboardType. The exception is logged and raised to the
    caller, and no result is returned. *)
Theorem unrecognized_classification_fails
    (report_data : list (string * pyval)) (now : datetime) (o : Objects) :
  (Zone.of_value (Str.lower (zone_type (billboard o))) = None ->
   check_billboard_compliance report_data now o =
   (log_error (ValueError (Str.lower (zone_type (billboard o))) "ZoneType") o,
    inl (ValueError (Str.lower (zone_type (billboard o))) "ZoneType"))) /\
  (forall zone,
      Zone.of_value (Str.lower (zone_type (billboard o))) = Some zone ->
      BType.of_value (Str.lower (billboard_type (billboard o))) = None ->
      check_billboard_compliance report_data now o =
      (log_error
         (ValueError (Str.lower (billboard_type (billboard o))) "BillboardType") o,
       inl (ValueError (Str.lower (billboard_type (billboard o))) "BillboardType"))) /\
  (Zone.of_value (Str.lower (zone_type (billboard o))) = None \/
   BType.of_value (Str.lower (billboard_type (billboard o))) = None ->
   (exists e, is_classification_error e = true /\
              check_billboard_compliance report_data now o = (log_error e o, inl e)) /\
   (forall result,
       snd (check_billboard_compliance report_data now o) <> inr result)).
Proof.
  assert (Zone.of_value (Str.lower (zone_type (billboard o))) = None ->
          check_billboard_compliance report_data now o =
          (log_error (ValueError (Str.lower (zone_type (billboard o))) "ZoneType") o,
           inl (ValueError (Str.lower (zone_type (billboard o))) "ZoneType")))
    as Hzone.
  { intros Hnone.
    unfold check_billboard_compliance, check_billboard_compliance_try, Zone.call.
    rewrite Hnone. reflexivity. }
  assert (forall zone,
             Zone.of_value (Str.lower (zone_type (billboard o))) = Some zone ->
             BType.of_value (Str.lower (billboard_type (billboard o))) = None ->
             check_billboard_compliance report_data now o =
             (log_error
                (ValueError (Str.lower (billboard_type (billboard o)))
                            "BillboardType") o,
              inl (ValueError (Str.lower (billboard_type (billboard o)))
                              "BillboardType")))
    as Htype.
  { intros zone Hsome Hnone.
    unfold check_billboard_compliance, check_billboard_compliance_try.
    unfold Zone.call, BType.call. rewrite Hsome, bind_ret, Hnone. reflexivity. }
  split; [exact Hzone | ]. split; [exact Htype | ].
  intros Hunknown.
  assert (exists e, is_classification_error e = true /\
                    check_billboard_compliance report_data now o =
                    (log_error e o, inl e)) as Hfails.
  { destruct (Zone.of_value (Str.lower (zone_type (billboard o))))
      as [zone | ] eqn:Hlookup.
    - destruct Hunknown as [Hnone | Hnone]; [discriminate | ].
      eexists. split; [ | exact (Htype zone eq_refl Hnone)]. reflexivity.
    - eexists. split; [ | exact (Hzone eq_refl)]. reflexivity. }
  split; [exact Hfails | ].
  destruct Hfails as (e & _ & ->). intros result. discriminate.
Qed.

Lemma unrecognized_classification_fails_witness :
  let nowhere :=
    {| self := default_checker;
       billboard := reclassified compliant_billboard "Nowhere" "unipoles" |} in
  let blimp :=
    {| self := default_checker;
       billboard := reclassified compliant_billboard "commercial" "Blimp" |} in
  check_billboard_compliance [] (noon 19000) nowhere =
    (log_error (ValueError "nowhere" "ZoneType") nowhere,
     inl (ValueError "nowhere" "ZoneType")) /\
  check_billboard_compliance [] (noon 19000) blimp =
    (log_error (ValueError "blimp" "BillboardType") blimp,
     inl (ValueError "blimp" "BillboardType")) /\
  (forall result,
      snd (check_billboard_compliance [] (noon 19000) blimp) <> inr result).
Proof.
  cbv zeta. split; [ | split].
  - apply (proj1 (unrecognized_classification_fails [] (noon 19000)
                    {| self := default_checker;
                       billboard :=
                         reclassified compliant_billboard "Nowhere" "unipoles" |})).
    reflexivity.
  - apply (proj1 (proj2 (unrecognized_classification_fails [] (noon 19000)
                           {| self := default_checker;
                              billboard :=
                                reclassified compliant_billboard
                                  "commercial" "Blimp" |}))
             COMMERCIAL).
    + reflexivity.
    + reflexivity.
  - apply (proj2 (proj2 (unrecognized_classification_fails [] (noon 19000)
                           {| self := default_checker;
                              billboard :=
                                reclassified compliant_billboard
                                  "commercial" "Blimp" |}))).
    right. reflexivity.
Defined.

Lemma Zone_call_value (zone : ZoneType) : Zone.call (Zone.value zone) = inr zone.
Proof. destruct zone; reflexivity. Qed.

Lemma BType_call_value (btype : BillboardType) :
  BType.call (BType.value btype) = inr btype.
Proof. destruct btype; reflexivity. Qed.

Lemma Zone_value_lower (zone : ZoneType) :
  Str.lower (Zone.value zone) = Zone.value zone.
Proof. destruct zone; reflexivity. Qed.

Lemma BType_value_lower (btype : BillboardType) :
  Str.lower (BType.value btype) = BType.value btype.
Proof. destruct btype; reflexivity. Qed.

(** ** Evaluation as a function of its inputs *)

Lemma check_administrative_reads_the_date (billboard : Billboard)
    (rules : list AdministrativeRequirement) (now1 now2 : datetime) :
  day now1 = day now2 ->
  _check_administrative billboard rules now1 =
  _check_administrative billboard rules now2.
Proof. unfold _check_administrative. intros ->. reflexivity. Qed.

Lemma try_reads_the_date (checker : ComplianceChecker) (b : Billboard)
    (report_data : list (string * pyval)) (now1 now2 : datetime) :
  day now1 = day now2 ->
  verdict (check_billboard_compliance_try checker b report_data now1) =
  verdict (check_billboard_compliance_try checker b report_data now2).
Proof.
  intros Hday. unfold check_billboard_compliance_try.
  destruct (Zone.call (Str.lower (zone_type b))) as [e | zone];
    [reflexivity | rewrite !bind_inr].
  destruct (BType.call (Str.lower (billboard_type b))) as [e | btype];
    [reflexivity | rewrite !bind_inr]. cbv zeta.
  set (rules := get_applicable_rules (config checker) zone btype).
  rewrite (check_administrative_reads_the_date b (administrative rules) now1 now2 Hday).
  destruct (_check_size b (size rules)) as [e | v1];
    [reflexivity | rewrite !bind_inr].
  destruct (_check_location b report_data (location rules)) as [e | v2];
    [reflexivity | rewrite !bind_inr].
  destruct (_check_content b report_data (content rules)) as [e | v3];
    [reflexivity | rewrite !bind_inr].
  destruct (_check_safety b (safety rules)) as [e | v4];
    [reflexivity | rewrite !bind_inr].
  destruct (_check_administrative b (administrative rules) now2) as [e | v5];
    reflexivity.
Qed.

(** C9, as stated, fails: the administrative check reads the clock, so the
    same configuration, billboard and report context give an empty
    violation list on one day and, once the permit has expired, no
    violation list at all. *)
Lemma evaluation_depends_on_the_clock :
  let o := {| self := default_checker; billboard := expiring_billboard |} in
  snd (check_billboard_compliance [] (noon 18999) o) =
    inr {| is_compliant := true;
           violations := [];
           checked_at := noon 18999;
           billboard_id := "1" |} /\
  snd (check_billboard_compliance [] (noon 19001) o) =
    inl ADMINISTRATIVE_VIOLATION_missing /\
  verdict (snd (check_billboard_compliance [] (noon 18999) o)) <>
  verdict (snd (check_billboard_compliance [] (noon 19001) o)).
Proof. cbv zeta. repeat split. discriminate. Qed.

(** C9, amended. Evaluation is a function of the configuration, the
    billboard, the report context and the date of the evaluation: two calls
    that agree on these, whatever the log holds and whatever the time of
    day, hand back the same exception or the same violation list, verdict
    and billboard id. A call leaves the billboard and the configuration as
    they were, and changes the log only by appending the exception it
    raises. *)
Theorem evaluation_is_a_function_of_inputs_and_date
    (report_data : list (string * pyval)) (now1 now2 : datetime) (o1 o2 : Objects) :
  config (self o1) = config (self o2) ->
  billboard o1 = billboard o2 ->
  day now1 = day now2 ->
  verdict (snd (check_billboard_compliance report_data now1 o1)) =
  verdict (snd (check_billboard_compliance report_data now2 o2)) /\
  billboard (fst (check_billboard_compliance report_data now1 o1)) = billboard o1 /\
  config (self (fst (check_billboard_compliance report_data now1 o1))) =
  config (self o1) /\
  logger (self (fst (check_billboard_compliance report_data now1 o1))) =
  logger (self o1) ++
  match snd (check_billboard_compliance report_data now1 o1) with
  | inl e => [ERROR e]
  | inr _ => []
  end.
Proof.
  intros Hconfig Hbillboard Hday.
  assert (check_billboard_compliance_try (self o2) (billboard o2) report_data now2 =
          check_billboard_compliance_try (self o1) (billboard o1) report_data now2)
    as Hsame.
  { unfold check_billboard_compliance_try. rewrite Hconfig, Hbillboard. reflexivity. }
  pose proof (try_reads_the_date (self o1) (billboard o1) report_data now1 now2 Hday)
    as Hdate.
  unfold check_billboard_compliance. rewrite Hsame.
  destruct (check_billboard_compliance_try (self o1) (billboard o1) report_data now1)
    as [e1 | r1];
    destruct (check_billboard_compliance_try (self o1) (billboard o1) report_data now2)
      as [e2 | r2];
    try discriminate Hdate;
    cbn [fst snd log_error self billboard config logger];
    repeat split; try exact Hdate; try reflexivity.
  rewrite app_nil_r. reflexivity.
Qed.

Lemma evaluation_is_a_function_of_inputs_and_date_witness :
  let o1 := {| self := default_checker; billboard := expiring_billboard |} in
  let o2 := {| self := {| config := load_default_config;
                          logger := [ERROR (TypeError "<")] |};
               billboard := expiring_billboard |} in
  let now1 := noon 19001 in
  let now2 := {| day := 19001; microsecond_of_day := 0 |} in
  verdict (snd (check_billboard_compliance [] now1 o1)) =
  verdict (snd (check_billboard_compliance [] now2 o2)) /\
  billboard (fst (check_billboard_compliance [] now1 o1)) = billboard o1 /\
  config (self (fst (check_billboard_compliance [] now1 o1))) = config (self o1) /\
  logger (self (fst (check_billboard_compliance [] now1 o1))) =
  logger (self o1) ++
  match snd (check_billboard_compliance [] now1 o1) with
  | inl e => [ERROR e]
  | inr _ => []
  end.
Proof.
  cbv zeta.
  apply (@evaluation_is_a_function_of_inputs_and_date [] (noon 19001)
           {| day := 19001; microsecond_of_day := 0 |}
           {| self := default_checker; billboard := expiring_billboard |}
           {| self := {| config := load_default_config;
                         logger := [ERROR (TypeError "<")] |};
              billboard := expiring_billboard |}).
  - reflexivity.
  - reflexivity.
  - reflexivity.
Defined.

(** ** Instances on the default configuration *)


Lemma check_content_one_violation_per_matched_tag_witness :
  _check_content compliant_billboard example_content_report
    (content_restrictions load_default_config) =
  inr (flat_map (expected_content_violations ["hate_speech"])
         (content_restrictions load_default_config)).
Proof.
  apply (proj1 check_content_one_violation_per_matched_tag compliant_billboard
           example_content_report
           [("detected_content", PList [PStr "hate_speech"])] ["hate_speech"]).
  - reflexivity.
  - left. reflexivity.
Defined.

Lemma check_administrative_raises_instead_of_emitting_witness :
  ([] : list Violation) = [] /\
  _check_administrative unpermitted_billboard
    (administrative_requirements load_default_config) (noon 19000) =
  inl ADMINISTRATIVE_VIOLATION_missing /\
  _check_administrative expiring_billboard
    (administrative_requirements load_default_config) (noon 19001) =
  inl ADMINISTRATIVE_VIOLATION_missing.
Proof.
  split; [ | split].
  - apply (proj1 check_administrative_raises_instead_of_emitting
             compliant_billboard
             (administrative_requirements load_default_config) (noon 19000)).
    reflexivity.
  - apply (proj1 (proj2 check_administrative_raises_instead_of_emitting)
             unpermitted_billboard).
    + reflexivity.
    + reflexivity.
  - apply (proj1 (proj2 (proj2 check_administrative_raises_instead_of_emitting))
             expiring_billboard _ _ (noon 19001) 19000%Z).
    + reflexivity.
    + reflexivity.
    + vm_compute. reflexivity.
Defined.

(** * Further properties of the checker *)

(** ** The safety and administrative checks *)

Lemma raising_loop_outcome {A} (test : A -> bool) (e : exn) (xs : list A)
    (acc : list Violation) :
  for_each xs (fun x violations => append_if (test x) (inl e) violations) acc =
  if existsb test xs then inl e else inr acc.
Proof.
  revert acc. induction xs as [ | x xs' IH]; intros acc; [reflexivity | ].
  cbn [for_each existsb]. destruct (test x); [reflexivity | ].
  rewrite append_if_false, bind_inr. apply IH.
Qed.

(** X1. The safety check either finds no rule whose required structural
    certificate the billboard lacks, and returns the empty list, or raises
    [AttributeError] for the missing [SAFETY_VIOLATION] member: it never
    reports "Missing structural certificate". *)
Theorem check_safety_outcome (billboard : Billboard)
    (rules : list SafetyRequirement) :
  _check_safety billboard rules =
  if existsb (lacks_certificate billboard) rules
  then inl SAFETY_VIOLATION_missing
  else inr [].
Proof.
  exact (raising_loop_outcome (lacks_certificate billboard)
           SAFETY_VIOLATION_missing rules []).
Qed.

Lemma administrative_loop_returns (billboard : Billboard) (now : datetime)
    (rules : list AdministrativeRequirement) (acc : list Violation) :
  for_each rules (fun rule violations =>
    violations <-
      append_if (lacks_permit billboard rule)
        (inl ADMINISTRATIVE_VIOLATION_missing) violations ;;
    expired <- permit_expired billboard (day now) ;;
    append_if expired (inl ADMINISTRATIVE_VIOLATION_missing) violations) acc
  = inr acc <->
  rules = [] \/
  (permit_expired billboard (day now) = inr false /\
   existsb (lacks_permit billboard) rules = false).
Proof.
  induction rules as [ | rule rules' IH]; cbn [for_each existsb].
  - split; [left; reflexivity | reflexivity].
  - destruct (lacks_permit billboard rule).
    + cbn. split; [discriminate | ]. intros [Hnil | [_ Hnone]]; discriminate.
    + rewrite append_if_false, bind_inr.
      destruct (permit_expired billboard (day now)) as [e | [ | ]].
      * cbn. split; [discriminate | ]. intros [Hnil | [Hexp _]]; discriminate.
      * cbn. split; [discriminate | ]. intros [Hnil | [Hexp _]]; discriminate.
      * rewrite bind_inr, append_if_false, bind_inr, IH. cbn [orb]. split.
        -- intros [-> | [_ Hnone]]; right; split; auto.
        -- intros [Hnil | [_ Hnone]]; [discriminate | ].
           right. split; [reflexivity | exact Hnone].
Qed.

Lemma administrative_loop_raises (billboard : Billboard) (now : datetime)
    (rules : list AdministrativeRequirement) (acc : list Violation) (e : exn) :
  for_each rules (fun rule violations =>
    violations <-
      append_if (lacks_permit billboard rule)
        (inl ADMINISTRATIVE_VIOLATION_missing) violations ;;
    expired <- permit_expired billboard (day now) ;;
    append_if expired (inl ADMINISTRATIVE_VIOLATION_missing) violations) acc
  = inl e ->
  e = ADMINISTRATIVE_VIOLATION_missing \/ e = TypeError "<".
Proof.
  assert (forall e', permit_expired billboard (day now) = inl e' ->
                     e' = TypeError "<") as Hcompare.
  { unfold permit_expired.
    destruct (permit_expiry_date billboard) as [[expiry | ] | ]; intros e';
      try discriminate.
    intros [= <-]. reflexivity. }
  revert Hcompare. generalize (permit_expired billboard (day now)) as expired.
  intros expired Hcompare. revert acc.
  induction rules as [ | rule rules' IH]; intros acc;
    cbn [for_each]; [discriminate | ].
  destruct (lacks_permit billboard rule).
  - cbn. intros [= <-]. left. reflexivity.
  - rewrite append_if_false, bind_inr. destruct expired as [e' | [ | ]].
    + cbn. intros [= <-]. right. apply Hcompare. reflexivity.
    + cbn. intros [= <-]. left. reflexivity.
    + rewrite bind_inr, append_if_false. apply IH.
Qed.

(** X2. The administrative check returns (the empty list) exactly when there is
    no rule, or when no rule requires a permit the billboard lacks and the
    permit is not expired; otherwise it raises, [AttributeError] for the
    missing [ADMINISTRATIVE_VIOLATION] member or [TypeError] from comparing
    a [None] expiry date. *)
Theorem check_administrative_outcome (billboard : Billboard)
    (rules : list AdministrativeRequirement) (now : datetime) :
  (_check_administrative billboard rules now = inr [] <->
   rules = [] \/
   (permit_expired billboard (day now) = inr false /\
    existsb (lacks_permit billboard) rules = false)) /\
  (forall e, _check_administrative billboard rules now = inl e ->
             e = ADMINISTRATIVE_VIOLATION_missing \/ e = TypeError "<").
Proof.
  split.
  - exact (administrative_loop_returns billboard now rules []).
  - intros e. exact (administrative_loop_raises billboard now rules [] (e := e)).
Qed.

(** X3. When the billboard has a [permit_expiry_date] attribute that holds
    [None], the administrative check raises [TypeError] at the first rule,
    unless that rule requires a permit the billboard lacks: [hasattr] is
    true of the attribute and the comparison with today's date fails. *)
Theorem check_administrative_none_expiry (billboard : Billboard)
    (rule : AdministrativeRequirement) (rules : list AdministrativeRequirement)
    (now : datetime) :
  permit_expiry_date billboard = Some None ->
  lacks_permit billboard rule = false ->
  _check_administrative billboard (rule :: rules) now = inl (TypeError "<").
Proof.
  intros Hnone Hpermit. apply for_each_raises_first.
  fold (lacks_permit billboard rule). rewrite Hpermit, append_if_false, bind_inr.
  unfold permit_expired. rewrite Hnone. reflexivity.
Qed.

Lemma check_administrative_none_expiry_witness :
  _check_administrative undated_billboard
    (administrative_requirements load_default_config) (noon 19000) =
  inl (TypeError "<").
Proof.
  apply check_administrative_none_expiry.
  - reflexivity.
  - reflexivity.
Defined.

Lemma check_administrative_outcome_witness :
  _check_administrative compliant_billboard
    (administrative_requirements load_default_config) (noon 19000) = inr [] /\
  (ADMINISTRATIVE_VIOLATION_missing = ADMINISTRATIVE_VIOLATION_missing \/
   ADMINISTRATIVE_VIOLATION_missing = TypeError "<").
Proof.
  split.
  - apply (proj1 (check_administrative_outcome compliant_billboard
                    (administrative_requirements load_default_config)
                    (noon 19000))).
    right. split; reflexivity.
  - apply (proj2 (check_administrative_outcome unpermitted_billboard
                    (administrative_requirements load_default_config)
                    (noon 19000))).
    reflexivity.
Defined.

(** ** Rule selection *)

Lemma Zone_mem_iff (zone : ZoneType) (zones : list ZoneType) :
  Zone.mem zone zones = true <-> In zone zones.
Proof.
  split; [apply Zone_mem_In | ].
  intros Hin. unfold Zone.mem. apply existsb_exists. exists zone.
  split; [exact Hin | ]. destruct (Zone.eq_dec zone zone); congruence.
Qed.

Lemma BType_mem_iff (btype : BillboardType) (types : list BillboardType) :
  BType.mem btype types = true <-> In btype types.
Proof.
  unfold BType.mem. rewrite existsb_exists. split.
  - intros (t & Ht & Heq). destruct (BType.eq_dec btype t) as [-> | ];
      [exact Ht | discriminate].
  - intros Hin. exists btype. split; [exact Hin | ].
    destruct (BType.eq_dec btype btype); congruence.
Qed.

Lemma selected_iff {R} `{Rule R} (zone : ZoneType) (btype : BillboardType)
    (catalog : list R) (rule : R) :
  In rule (filter (is_applicable zone btype) catalog) <->
  In rule catalog /\
  In zone (applicable_zones (base rule)) /\
  In btype (applicable_billboard_types (base rule)).
Proof.
  rewrite filter_In. unfold is_applicable.
  rewrite andb_true_iff, Zone_mem_iff, BType_mem_iff. reflexivity.
Qed.

(** X4. In every category, the selection for a zone and a billboard type holds
    exactly the rules of the configuration that list both the zone and the
    type: no rule that excludes the zone or the type is selected, and none
    that lists both is left out. *)
Theorem get_applicable_rules_selects (cfg : ComplianceConfig)
    (zone : ZoneType) (btype : BillboardType) :
  let rules := get_applicable_rules cfg zone btype in
  let listed (r : ComplianceRule) :=
    In zone (applicable_zones r) /\ In btype (applicable_billboard_types r) in
  (forall rule, In rule (size rules) <->
      In rule (values (size_restrictions cfg)) /\ listed (base rule)) /\
  (forall rule, In rule (location rules) <->
      In rule (location_restrictions cfg) /\ listed (base rule)) /\
  (forall rule, In rule (content rules) <->
      In rule (content_restrictions cfg) /\ listed (base rule)) /\
  (forall rule, In rule (safety rules) <->
      In rule (safety_requirements cfg) /\ listed (base rule)) /\
  (forall rule, In rule (administrative rules) <->
      In rule (administrative_requirements cfg) /\ listed (base rule)).
Proof.
  cbv zeta. repeat apply conj; intros rule; apply selected_iff.
Qed.

(** ** What a returned result holds *)

Lemma emitted_for_snoc {R} `{Rule R} (t : ViolationType) (rules : list R)
    (rule : R) (message : string) (acc : list Violation) :
  In rule rules -> Forall (emitted_for t rules) acc ->
  Forall (emitted_for t rules) (acc ++ [violation_of rule t message]).
Proof.
  intros Hin Hacc. apply Forall_app. split; [exact Hacc | ].
  constructor; [ | constructor]. exists rule, message. split; [exact Hin | reflexivity].
Qed.

Lemma append_if_emitted {R} `{Rule R} (t : ViolationType) (rules : list R)
    (rule : R) (message : string) (cond : bool) (acc acc' : list Violation) :
  In rule rules -> Forall (emitted_for t rules) acc ->
  append_if cond (inr (violation_of rule t message)) acc = inr acc' ->
  Forall (emitted_for t rules) acc'.
Proof.
  intros Hin Hacc. destruct cond; cbn; intros [= <-]; [ | exact Hacc].
  apply emitted_for_snoc; assumption.
Qed.

Lemma check_size_emitted (billboard : Billboard) (rules : list SizeRestriction)
    (found : list Violation) :
  _check_size billboard rules = inr found ->
  Forall (emitted_for SIZE_VIOLATION rules) found.
Proof.
  unfold _check_size.
  apply (for_each_invariant (Forall (emitted_for SIZE_VIOLATION rules)));
    [ | constructor].
  intros rule acc acc' Hin Hacc Hbody. rewrite !create_violation_size in Hbody.
  apply bind_returns in Hbody as (acc1 & Hwidth & Hbody).
  apply bind_returns in Hbody as (acc2 & Hheight & Harea).
  eapply append_if_emitted in Hwidth; [ | exact Hin | exact Hacc].
  eapply append_if_emitted in Hheight; [ | exact Hin | exact Hwidth].
  eapply append_if_emitted; [exact Hin | exact Hheight | exact Harea].
Qed.

Lemma check_location_emitted (billboard : Billboard)
    (report_data : list (string * pyval)) (rules : list LocationRestriction)
    (found : list Violation) :
  _check_location billboard report_data rules = inr found ->
  Forall (emitted_for LOCATION_VIOLATION rules) found.
Proof.
  unfold _check_location.
  apply (for_each_invariant (Forall (emitted_for LOCATION_VIOLATION rules)));
    [ | constructor].
  intros rule acc acc' Hin Hacc Hbody.
  destruct (lookup "location" report_data) as [loc | ].
  - apply bind_returns in Hbody as (distance & _ & Hbody).
    apply bind_returns in Hbody as (too_close & _ & Hbody).
    rewrite create_violation_location in Hbody.
    eapply append_if_emitted; [exact Hin | exact Hacc | exact Hbody].
  - injection Hbody as <-. exact Hacc.
Qed.

Lemma check_content_emitted (billboard : Billboard)
    (report_data : list (string * pyval)) (rules : list ContentRestriction)
    (found : list Violation) :
  _check_content billboard report_data rules = inr found ->
  Forall (emitted_for CONTENT_VIOLATION rules) found.
Proof.
  unfold _check_content.
  destruct (lookup "content_analysis" report_data) as [content | ].
  - apply (for_each_invariant (Forall (emitted_for CONTENT_VIOLATION rules)));
      [ | constructor].
    intros rule acc acc' Hin. apply for_each_invariant.
    intros tag acc1 acc2 _ Hacc1 Hbody.
    apply bind_returns in Hbody as (detected & _ & Hbody).
    apply bind_returns in Hbody as (present & _ & Hbody).
    rewrite create_violation_content in Hbody.
    eapply append_if_emitted; [exact Hin | exact Hacc1 | exact Hbody].
  - intros [= <-]. constructor.
Qed.

Lemma returned_result_fields (report_data : list (string * pyval))
    (now : datetime) (o : Objects) (result : ComplianceResult) :
  snd (check_billboard_compliance report_data now o) = inr result ->
  is_compliant result = (length (violations result) =? 0)%nat /\
  checked_at result = now /\
  billboard_id result = Str.of_int (id (billboard o)).
Proof.
  unfold check_billboard_compliance.
  destruct (check_billboard_compliance_try (self o) (billboard o) report_data now)
    as [e | r] eqn:Htry; cbn [snd]; [discriminate | ].
  intros [= ->]. unfold check_billboard_compliance_try in Htry.
  repeat (apply bind_returns in Htry as (? & _ & Htry)).
  cbv zeta in Htry. injection Htry as <-. repeat split.
Qed.

Lemma emitted_is_reported {R} `{Rule R} (t : ViolationType) (rules : list R)
    (found : list Violation) :
  Forall (emitted_for t rules) found -> Forall (reported_for t rules) found.
Proof.
  apply Forall_impl. intros v (rule & message & Hin & ->).
  exists rule, message. split; [exact Hin | reflexivity].
Qed.

(** X5. A result the call returns is made of what the size, location and
    content checks return on the rules selected for the billboard's zone
    and type: its violation list is the size check's list, then the
    location check's, then the content check's, and nothing else. Each
    violation is the record of a selected rule of that category: the rule's
    id and severity, the type of the category, a message, and the rule's
    description. The result is compliant exactly when the list is empty,
    and carries the call's time and the billboard's id in decimal. *)
Theorem returned_result_structure (report_data : list (string * pyval))
    (now : datetime) (o : Objects) (result : ComplianceResult) :
  snd (check_billboard_compliance report_data now o) = inr result ->
  exists zone btype in_size in_location in_content,
    Zone.of_value (Str.lower (zone_type (billboard o))) = Some zone /\
    BType.of_value (Str.lower (billboard_type (billboard o))) = Some btype /\
    let rules := get_applicable_rules (config (self o)) zone btype in
    _check_size (billboard o) (size rules) = inr in_size /\
    _check_location (billboard o) report_data (location rules) = inr in_location /\
    _check_content (billboard o) report_data (content rules) = inr in_content /\
    violations result = in_size ++ in_location ++ in_content /\
    Forall (reported_for SIZE_VIOLATION (size rules)) in_size /\
    Forall (reported_for LOCATION_VIOLATION (location rules)) in_location /\
    Forall (reported_for CONTENT_VIOLATION (content rules)) in_content /\
    (is_compliant result = true <-> violations result = []) /\
    checked_at result = now /\
    billboard_id result = Str.of_int (id (billboard o)).
Proof.
  intros Hresult.
  destruct (returned_result_fields _ _ _ Hresult) as (Hflag & Hat & Hid).
  apply check_billboard_compliance_returns in Hresult
    as (zone & btype & in_size & in_location & in_content
        & Hzone & Hbtype & Hsize & Hlocation & Hcontent & _ & _ & Hlist).
  exists zone, btype, in_size, in_location, in_content.
  split.
  { unfold Zone.call in Hzone.
    destruct (Zone.of_value (Str.lower (zone_type (billboard o))));
      [injection Hzone as -> | discriminate]. reflexivity. }
  split.
  { unfold BType.call in Hbtype.
    destruct (BType.of_value (Str.lower (billboard_type (billboard o))));
      [injection Hbtype as -> | discriminate]. reflexivity. }
  cbv zeta. split; [exact Hsize | ]. split; [exact Hlocation | ].
  split; [exact Hcontent | ]. split; [exact Hlist | ].
  split; [apply emitted_is_reported; eapply check_size_emitted; exact Hsize | ].
  split; [apply emitted_is_reported; eapply check_location_emitted; exact Hlocation | ].
  split; [apply emitted_is_reported; eapply check_content_emitted; exact Hcontent | ].
  split; [ | split; assumption].
  rewrite Hflag. destruct (violations result); cbn; split; congruence.
Qed.

Lemma returned_result_structure_witness :
  let o := {| self := default_checker; billboard := oversized_billboard |} in
  exists zone btype in_size in_location in_content,
    Zone.of_value (Str.lower (zone_type (billboard o))) = Some zone /\
    BType.of_value (Str.lower (billboard_type (billboard o))) = Some btype /\
    let rules := get_applicable_rules (config (self o)) zone btype in
    _check_size (billboard o) (size rules) = inr in_size /\
    _check_location (billboard o) full_report (location rules) = inr in_location /\
    _check_content (billboard o) full_report (content rules) = inr in_content /\
    violations full_report_result = in_size ++ in_location ++ in_content /\
    Forall (reported_for SIZE_VIOLATION (size rules)) in_size /\
    Forall (reported_for LOCATION_VIOLATION (location rules)) in_location /\
    Forall (reported_for CONTENT_VIOLATION (content rules)) in_content /\
    (is_compliant full_report_result = true <-> violations full_report_result = []) /\
    checked_at full_report_result = noon 19000 /\
    billboard_id full_report_result = Str.of_int (id (billboard o)).
Proof.
  cbv zeta.
  apply (@returned_result_structure full_report (noon 19000)
           {| self := default_checker; billboard := oversized_billboard |}
           full_report_result).
  reflexivity.
Defined.

(** ** Which billboards get a verdict *)

(** X6. A call returns a result, compliant or not, only for a billboard that
    passes the safety and administrative tests of every selected rule: no
    selected safety rule requires a certificate the billboard lacks, and
    either no administrative rule is selected, or none requires a permit the
    billboard lacks and the permit is not expired. *)
Theorem verdict_only_when_safe_and_permitted
    (report_data : list (string * pyval)) (now : datetime) (o : Objects)
    (result : ComplianceResult) :
  snd (check_billboard_compliance report_data now o) = inr result ->
  exists zone btype,
    Zone.of_value (Str.lower (zone_type (billboard o))) = Some zone /\
    BType.of_value (Str.lower (billboard_type (billboard o))) = Some btype /\
    let rules := get_applicable_rules (config (self o)) zone btype in
    existsb (lacks_certificate (billboard o)) (safety rules) = false /\
    (administrative rules = [] \/
     (permit_expired (billboard o) (day now) = inr false /\
      existsb (lacks_permit (billboard o)) (administrative rules) = false)).
Proof.
  intros Hresult.
  apply check_billboard_compliance_returns in Hresult
    as (zone & btype & in_size & in_location & in_content
        & Hzone & Hbtype & _ & _ & _ & Hsafety & Hadmin & _).
  exists zone, btype.
  split.
  { unfold Zone.call in Hzone.
    destruct (Zone.of_value (Str.lower (zone_type (billboard o))));
      [injection Hzone as -> | discriminate]. reflexivity. }
  split.
  { unfold BType.call in Hbtype.
    destruct (BType.of_value (Str.lower (billboard_type (billboard o))));
      [injection Hbtype as -> | discriminate]. reflexivity. }
  cbv zeta. split.
  - unfold _check_safety in Hsafety.
    change (for_each
              (safety (get_applicable_rules (config (self o)) zone btype))
              (fun rule violations =>
                 append_if (lacks_certificate (billboard o) rule)
                   (inl SAFETY_VIOLATION_missing) violations) [] = inr [])
      in Hsafety.
    rewrite raising_loop_outcome in Hsafety.
    destruct (existsb (lacks_certificate (billboard o))
                (safety (get_applicable_rules (config (self o)) zone btype)));
      [discriminate | reflexivity].
  - exact (proj1 (administrative_loop_returns (billboard o) now _ []) Hadmin).
Qed.

Lemma verdict_only_when_safe_and_permitted_witness :
  let o := {| self := default_checker; billboard := compliant_billboard |} in
  exists zone btype,
    Zone.of_value (Str.lower (zone_type (billboard o))) = Some zone /\
    BType.of_value (Str.lower (billboard_type (billboard o))) = Some btype /\
    let rules := get_applicable_rules (config (self o)) zone btype in
    existsb (lacks_certificate (billboard o)) (safety rules) = false /\
    (administrative rules = [] \/
     (permit_expired (billboard o) (day (noon 19000)) = inr false /\
      existsb (lacks_permit (billboard o)) (administrative rules) = false)).
Proof.
  cbv zeta.
  apply (@verdict_only_when_safe_and_permitted [] (noon 19000)
           {| self := default_checker; billboard := compliant_billboard |}
           {| is_compliant := true; violations := [];
              checked_at := noon 19000; billboard_id := "1" |}).
  reflexivity.
Defined.

(** X7. With a recognized zone and type, when the location and content checks
    return and a selected safety rule requires a structural certificate the
    billboard lacks, the call reports nothing: it logs and raises the
    [AttributeError] for the missing [SAFETY_VIOLATION] member. *)
Theorem missing_certificate_fails_the_call
    (report_data : list (string * pyval)) (now : datetime) (o : Objects)
    (zone : ZoneType) (btype : BillboardType)
    (in_location in_content : list Violation) :
  Zone.call (Str.lower (zone_type (billboard o))) = inr zone ->
  BType.call (Str.lower (billboard_type (billboard o))) = inr btype ->
  let rules := get_applicable_rules (config (self o)) zone btype in
  _check_location (billboard o) report_data (location rules) = inr in_location ->
  _check_content (billboard o) report_data (content rules) = inr in_content ->
  existsb (lacks_certificate (billboard o)) (safety rules) = true ->
  check_billboard_compliance report_data now o =
  (log_error SAFETY_VIOLATION_missing o, inl SAFETY_VIOLATION_missing).
Proof.
  intros Hzone Hbtype rules Hlocation Hcontent Hlacks.
  unfold check_billboard_compliance, check_billboard_compliance_try.
  rewrite Hzone, bind_inr, Hbtype, bind_inr. cbv zeta. fold rules.
  rewrite check_size_returns, bind_inr, Hlocation, bind_inr, Hcontent, bind_inr.
  change (_check_safety (billboard o) (safety rules))
    with (for_each (safety rules)
            (fun rule violations =>
               append_if (lacks_certificate (billboard o) rule)
                 (inl SAFETY_VIOLATION_missing) violations) []).
  rewrite raising_loop_outcome, Hlacks. reflexivity.
Qed.

Lemma missing_certificate_fails_the_call_witness :
  let b := {| id := 1; zone_type := "Heritage"; billboard_type := "kiosk";
              width_meters := 2%float; height_meters := 2%float;
              permit_number := Some "P-1";
              structural_certificate_id := None;
              permit_expiry_date := None |} in
  let o := {| self := default_checker; billboard := b |} in
  check_billboard_compliance [] (noon 19000) o =
  (log_error SAFETY_VIOLATION_missing o, inl SAFETY_VIOLATION_missing).
Proof.
  cbv zeta.
  apply (@missing_certificate_fails_the_call [] (noon 19000)
           {| self := default_checker;
              billboard :=
                {| id := 1; zone_type := "Heritage"; billboard_type := "kiosk";
                   width_meters := 2%float; height_meters := 2%float;
                   permit_number := Some "P-1";
                   structural_certificate_id := None;
                   permit_expiry_date := None |} |}
           HERITAGE KIOSK [] []).
  - reflexivity.
  - reflexivity.
  - reflexivity.
  - reflexivity.
  - reflexivity.
Defined.

(** X8. Under the default configuration only the content rule is selected for
    the prohibited zone. So every billboard there, of any recognized type,
    whatever its size, permit and certificate, is returned as compliant when
    the report carries no content analysis, and nothing is logged. *)
Theorem default_config_prohibited_zone_compliant
    (b : Billboard) (report_data : list (string * pyval)) (now : datetime)
    (log : list LogRecord) (btype : BillboardType) :
  Str.lower (zone_type b) = "prohibited" ->
  BType.of_value (Str.lower (billboard_type b)) = Some btype ->
  lookup "content_analysis" report_data = None ->
  let o := {| self := {| config := load_default_config; logger := log |};
              billboard := b |} in
  check_billboard_compliance report_data now o =
  (o, inr {| is_compliant := true;
             violations := [];
             checked_at := now;
             billboard_id := Str.of_int (id b) |}).
Proof.
  intros Hzone Hbtype Hcontent o.
  unfold check_billboard_compliance, check_billboard_compliance_try.
  cbn [self billboard o config]. rewrite Hzone.
  unfold BType.call. rewrite Hbtype.
  change (Zone.call "prohibited") with (inr PROHIBITED : py ZoneType).
  rewrite bind_inr, bind_ret. cbv zeta.
  assert (get_applicable_rules load_default_config PROHIBITED btype =
          {| size := []; location := [];
             content := content_restrictions load_default_config;
             safety := []; administrative := [] |}) as ->
    by (destruct btype; reflexivity).
  cbn [size location content safety administrative].
  unfold _check_content. rewrite Hcontent. reflexivity.
Qed.

Lemma default_config_prohibited_zone_compliant_witness :
  let b := reclassified unpermitted_billboard "PROHIBITED" "Rooftop" in
  let o := {| self := {| config := load_default_config; logger := [] |};
              billboard := b |} in
  check_billboard_compliance measured_location_report (noon 19000) o =
  (o, inr {| is_compliant := true;
             violations := [];
             checked_at := noon 19000;
             billboard_id := Str.of_int (id b) |}).
Proof.
  cbv zeta.
  apply (@default_config_prohibited_zone_compliant
           (reclassified unpermitted_billboard "PROHIBITED" "Rooftop")
           measured_location_report (noon 19000) [] ROOFTOP).
  - reflexivity.
  - reflexivity.
  - reflexivity.
Defined.

(** ** The content check on other report contexts *)

Lemma content_loop_not_a_dict (content : pyval) (rules : list ContentRestriction)
    (acc : list Violation) :
  is_dict content = false ->
  for_each rules (fun rule violations =>
    for_each (prohibited_content rule) (fun prohibited violations =>
      detected <- py_get content "detected_content" (PDict []) ;;
      found <- py_in prohibited detected ;;
      append_if found
        (_create_violation rule ("Prohibited content: " ++ prohibited)%string)
        violations) violations) acc =
  if existsb prohibits_something rules
  then inl (AttributeError "object" "get")
  else inr acc.
Proof.
  intros Hshape. induction rules as [ | rule rules' IH]; [reflexivity | ].
  cbn [for_each existsb]. unfold prohibits_something at 1.
  destruct (prohibited_content rule) as [ | tag tags].
  - cbn [for_each orb]. rewrite bind_ret. exact IH.
  - cbn [for_each orb].
    destruct content; try discriminate Hshape; reflexivity.
Qed.

(** X9. Without a [content_analysis] entry the content check returns no
    violation whatever the rules are. With an entry that is not a dict it
    raises [AttributeError] as soon as a rule prohibits some tag, and
    returns no violation when no rule prohibits anything. *)
Theorem check_content_without_analysis (billboard : Billboard)
    (report_data : list (string * pyval)) (rules : list ContentRestriction) :
  (lookup "content_analysis" report_data = None ->
   _check_content billboard report_data rules = inr []) /\
  (forall content,
      lookup "content_analysis" report_data = Some content ->
      is_dict content = false ->
      _check_content billboard report_data rules =
      if existsb prohibits_something rules
      then inl (AttributeError "object" "get")
      else inr []).
Proof.
  split.
  - intros Hnone. unfold _check_content. rewrite Hnone. reflexivity.
  - intros content Hentry Hshape. unfold _check_content. rewrite Hentry.
    exact (@content_loop_not_a_dict content rules [] Hshape).
Qed.

Lemma check_content_without_analysis_witness :
  _check_content compliant_billboard measured_location_report
    (content_restrictions load_default_config) = inr [] /\
  _check_content compliant_billboard [("content_analysis", PList [PStr "obscene"])]
    (content_restrictions load_default_config) =
  (if existsb prohibits_something (content_restrictions load_default_config)
   then inl (AttributeError "object" "get")
   else inr []).
Proof.
  split.
  - apply (proj1 (check_content_without_analysis compliant_billboard
                    measured_location_report
                    (content_restrictions load_default_config))).
    reflexivity.
  - apply (proj2 (check_content_without_analysis compliant_billboard
                    [("content_analysis", PList [PStr "obscene"])]
                    (content_restrictions load_default_config))
             (PList [PStr "obscene"])).
    + reflexivity.
    + reflexivity.
Defined.

(** X10. When [detected_content] is a string, a prohibited tag matches by
    occurring anywhere in it: the check returns one violation per
    prohibited tag that is a substring of the text, whether or not the text
    names that tag as a whole. *)
Theorem check_content_matches_substrings (billboard : Billboard)
    (report_data content : list (string * pyval)) (text : string)
    (rules : list ContentRestriction) :
  lookup "content_analysis" report_data = Some (PDict content) ->
  lookup "detected_content" content = Some (PStr text) ->
  _check_content billboard report_data rules =
  inr (flat_map (substring_violations text) rules).
Proof.
  intros Hentry Htext. unfold _check_content. rewrite Hentry.
  rewrite (for_each_appends (substring_violations text)); [reflexivity | ].
  intros rule acc _. unfold substring_violations.
  rewrite <- flat_map_singleton_if. apply for_each_appends.
  intros tag acc' _. unfold py_get. rewrite Htext, bind_ret.
  unfold py_in. rewrite bind_ret, create_violation_content.
  destruct (Str.contains tag text); [reflexivity | ].
  rewrite app_nil_r. reflexivity.
Qed.

Lemma check_content_matches_substrings_witness :
  _check_content compliant_billboard
    [("content_analysis", PDict [("detected_content", PStr "not_obscene_at_all")])]
    (content_restrictions load_default_config) =
  inr (flat_map (substring_violations "not_obscene_at_all")
         (content_restrictions load_default_config)) /\
  length (flat_map (substring_violations "not_obscene_at_all")
            (content_restrictions load_default_config)) = 1.
Proof.
  split; [ | reflexivity].
  apply (@check_content_matches_substrings compliant_billboard
           [("content_analysis",
             PDict [("detected_content", PStr "not_obscene_at_all")])]
           [("detected_content", PStr "not_obscene_at_all")]).
  - reflexivity.
  - reflexivity.
Defined.

(** ** The location check on other report contexts *)

Lemma ltb_infinity (bound : float) : PrimFloat.ltb infinity bound = false.
Proof.
  rewrite ltb_spec. change (Prim2SF infinity) with (S754_infinity false).
  destruct (Prim2SF bound) as [ s | s | | s m e]; try destruct s; reflexivity.
Qed.

(** X11. A [location] entry that is a dict without a measured intersection
    distance reads as infinitely far: the location check returns no
    violation, whatever the rules and their minimum distances. *)
Theorem check_location_without_distance (billboard : Billboard)
    (report_data loc : list (string * pyval)) (rules : list LocationRestriction) :
  lookup "location" report_data = Some (PDict loc) ->
  lookup "distance_from_intersection" loc = None ->
  _check_location billboard report_data rules = inr [].
Proof.
  intros Hentry Hmissing.
  rewrite (@check_location_with_entry billboard report_data loc infinity rules Hentry)
    by (unfold measured_distance; rewrite Hmissing; reflexivity).
  induction rules as [ | rule rules' IH]; [reflexivity | ].
  cbn [filter]. rewrite ltb_infinity. exact IH.
Qed.

Lemma check_location_without_distance_witness :
  _check_location compliant_billboard [("location", PDict [("latitude", PFloat 12.5)])]
    (location_restrictions load_default_config) = inr [].
Proof.
  apply (@check_location_without_distance compliant_billboard
           [("location", PDict [("latitude", PFloat 12.5)])]
           [("latitude", PFloat 12.5)]).
  - reflexivity.
  - reflexivity.
Defined.

(** X12. With no location rule selected the location check returns the
    empty list whatever the [location] entry is. With a rule, an entry that
    is not a dict makes the check raise [AttributeError] at the first rule,
    and a measured distance that is not a number (a float, an integer or a
    boolean) makes it raise [TypeError] there. An integer distance raises
    nothing: it is compared exactly with each rule's minimum. *)
Theorem check_location_malformed_entry (billboard : Billboard)
    (report_data : list (string * pyval)) (rule : LocationRestriction)
    (rules : list LocationRestriction) :
  _check_location billboard report_data [] = inr [] /\
  (forall entry,
      lookup "location" report_data = Some entry ->
      is_dict entry = false ->
      _check_location billboard report_data (rule :: rules) =
      inl (AttributeError "object" "get")) /\
  (forall loc,
      lookup "location" report_data = Some (PDict loc) ->
      is_number (measured_distance loc) = false ->
      _check_location billboard report_data (rule :: rules) =
      inl (TypeError "<")) /\
  (forall loc n,
      lookup "location" report_data = Some (PDict loc) ->
      measured_distance loc = PInt n ->
      _check_location billboard report_data (rule :: rules) =
      inr (map (fun r => reported (location_base r) LOCATION_VIOLATION
                                  "Too close to intersection")
               (filter (fun r => int_lt_float n (min_distance_from_intersection r))
                       (rule :: rules)))).
Proof.
  split; [reflexivity | ]. split; [ | split].
  - intros entry Hentry Hshape. apply for_each_raises_first. rewrite Hentry.
    destruct entry; try discriminate Hshape; reflexivity.
  - intros loc Hentry Hshape. apply for_each_raises_first. rewrite Hentry.
    unfold py_get. fold (measured_distance loc). rewrite bind_ret.
    destruct (measured_distance loc); try discriminate Hshape; reflexivity.
  - intros loc n Hentry Hdist. unfold _check_location.
    rewrite <- flat_map_singleton_if.
    rewrite (for_each_appends
               (fun r =>
                  if int_lt_float n (min_distance_from_intersection r)
                  then [reported (location_base r) LOCATION_VIOLATION
                                 "Too close to intersection"]
                  else [])); [reflexivity | ].
    intros r acc _. rewrite Hentry. unfold py_get. fold (measured_distance loc).
    rewrite Hdist, bind_ret. unfold py_lt_float. rewrite bind_ret.
    rewrite create_violation_location.
    destruct (int_lt_float n (min_distance_from_intersection r)).
    + reflexivity.
    + rewrite app_nil_r. reflexivity.
Qed.

Lemma check_location_malformed_entry_witness :
  _check_location compliant_billboard malformed_location_report
    (location_restrictions load_default_config) =
  inl (AttributeError "object" "get") /\
  _check_location compliant_billboard
    [("location", PDict [("distance_from_intersection", PNone)])]
    (location_restrictions load_default_config) = inl (TypeError "<") /\
  _check_location oversized_billboard full_report
    (location_restrictions load_default_config) =
  inr (map (fun r => reported (location_base r) LOCATION_VIOLATION
                              "Too close to intersection")
           (filter (fun r => int_lt_float 29 (min_distance_from_intersection r))
                   (location_restrictions load_default_config))) /\
  map (fun r => reported (location_base r) LOCATION_VIOLATION
                         "Too close to intersection")
      (filter (fun r => int_lt_float 29 (min_distance_from_intersection r))
              (location_restrictions load_default_config)) =
  [intersection_finding].
Proof.
  split; [ | split; [ | split; [ | reflexivity]]].
  - apply (proj1 (proj2 (check_location_malformed_entry compliant_billboard
                           malformed_location_report _ [])) (PStr "12.5")).
    + reflexivity.
    + reflexivity.
  - apply (proj1 (proj2 (proj2 (check_location_malformed_entry compliant_billboard
                                  [("location",
                                    PDict [("distance_from_intersection", PNone)])]
                                  _ [])))
             [("distance_from_intersection", PNone)]).
    + reflexivity.
    + reflexivity.
  - unfold load_default_config. cbn [location_restrictions].
    apply (proj2 (proj2 (proj2 (check_location_malformed_entry oversized_billboard
                                  full_report _ [])))
             [("distance_from_intersection", PInt 29)] 29%Z).
    + reflexivity.
    + reflexivity.
Defined.

(** ** The size check: compliance and count *)

Lemma size_violations_nil_iff (billboard : Billboard) (rule : SizeRestriction) :
  size_violations billboard rule = [] <-> within_size_limits billboard rule = true.
Proof.
  unfold size_violations, within_size_limits.
  destruct (gt (width_meters billboard) (max_width_meters rule)),
           (gt (height_meters billboard) (max_height_meters rule)),
           (gt (width_meters billboard * height_meters billboard)
               (max_area_sqm rule));
    cbn; split; congruence.
Qed.

Lemma size_violations_at_most_three (billboard : Billboard) (rule : SizeRestriction) :
  length (size_violations billboard rule) <= 3.
Proof.
  unfold size_violations.
  destruct (gt (width_meters billboard) (max_width_meters rule)),
           (gt (height_meters billboard) (max_height_meters rule)),
           (gt (width_meters billboard * height_meters billboard)
               (max_area_sqm rule));
    cbn; lia.
Qed.

(** X13. The size check returns the empty list exactly when the billboard is
    within the width, height and area limits of every rule, and it never
    returns more than three violations per rule. *)
Theorem check_size_empty_iff_within_limits (billboard : Billboard)
    (rules : list SizeRestriction) :
  (_check_size billboard rules = inr [] <->
   forallb (within_size_limits billboard) rules = true) /\
  (forall found, _check_size billboard rules = inr found ->
                 length found <= 3 * length rules).
Proof.
  rewrite check_size_returns. split.
  - induction rules as [ | rule rules' IH]; cbn [flat_map forallb].
    + split; reflexivity.
    + rewrite andb_true_iff, <- IH, <- size_violations_nil_iff. split.
      * intros [= Happ]. apply app_eq_nil in Happ as [-> ->]. split; reflexivity.
      * intros [-> [= ->]]. reflexivity.
  - intros found [= <-].
    induction rules as [ | rule rules' IH]; cbn [flat_map length]; [lia | ].
    rewrite length_app.
    pose proof (size_violations_at_most_three billboard rule). lia.
Qed.

Lemma check_size_empty_iff_within_limits_witness :
  _check_size compliant_billboard (values (size_restrictions load_default_config))
  = inr [] /\
  length ([] : list Violation) <=
  3 * length (values (size_restrictions load_default_config)).
Proof.
  split.
  - apply (proj1 (check_size_empty_iff_within_limits compliant_billboard
                    (values (size_restrictions load_default_config)))).
    reflexivity.
  - apply (proj2 (check_size_empty_iff_within_limits compliant_billboard
                    (values (size_restrictions load_default_config)))).
    reflexivity.
Defined.

(** ** The enumerations *)

(** X14. Looking a string up in the zone or billboard-type enumeration and
    reading the value of a member are inverse to each other: the lookup
    finds a member exactly when the string is that member's value, so
    distinct members have distinct values. *)
Theorem enumeration_lookup_inverts_value :
  (forall s zone, Zone.of_value s = Some zone <-> Zone.value zone = s) /\
  (forall s btype, BType.of_value s = Some btype <-> BType.value btype = s).
Proof.
  split.
  - intros s zone. split.
    + unfold Zone.of_value. intros Hfound.
      apply find_some in Hfound as [_ Heq]. apply String.eqb_eq. exact Heq.
    + intros <-. destruct zone; reflexivity.
  - intros s btype. split.
    + unfold BType.of_value. intros Hfound.
      apply find_some in Hfound as [_ Heq]. apply String.eqb_eq. exact Heq.
    + intros <-. destruct btype; reflexivity.
Qed.

Lemma enumeration_lookup_inverts_value_witness :
  Zone.value HERITAGE = "heritage" /\
  BType.of_value "bus_shelter" = Some BUS_SHELTER.
Proof.
  split.
  - apply (proj1 (proj1 enumeration_lookup_inverts_value "heritage" HERITAGE)).
    reflexivity.
  - apply (proj2 (proj2 enumeration_lookup_inverts_value "bus_shelter" BUS_SHELTER)).
    reflexivity.
Defined.

(** ** Verdicts under the default configuration *)

Lemma Zone_call_inverts (s : string) (zone : ZoneType) :
  Zone.call s = inr zone -> Zone.value zone = s.
Proof.
  unfold Zone.call, Zone.of_value.
  destruct (find (fun z => String.eqb (Zone.value z) s) Zone.members) as [z | ] eqn:Hfind;
    [ | discriminate].
  intros [= <-]. apply find_some in Hfind as [_ Heq]. apply String.eqb_eq. exact Heq.
Qed.

Lemma default_config_papers_rules (zone : ZoneType) (btype : BillboardType) :
  zone <> PROHIBITED ->
  safety (get_applicable_rules load_default_config zone btype) =
    safety_requirements load_default_config /\
  administrative (get_applicable_rules load_default_config zone btype) =
    administrative_requirements load_default_config.
Proof.
  intros Hzone. destruct zone; try contradiction; destruct btype; split; reflexivity.
Qed.

(** X15. Under the default configuration, a call for a billboard outside the
    prohibited zone returns a result only if the billboard has a structural
    certificate and a permit number, both non-empty, and a permit that is
    not expired: a billboard that lacks any of these gets no verdict. *)
Theorem default_config_verdict_requires_papers
    (b : Billboard) (report_data : list (string * pyval)) (now : datetime)
    (log : list LogRecord) (result : ComplianceResult) :
  snd (check_billboard_compliance report_data now
         {| self := {| config := load_default_config; logger := log |};
            billboard := b |}) = inr result ->
  Str.lower (zone_type b) <> "prohibited" ->
  py_not (structural_certificate_id b) = false /\
  py_not (permit_number b) = false /\
  permit_expired b (day now) = inr false.
Proof.
  intros Hresult Hzone.
  apply check_billboard_compliance_returns in Hresult
    as (zone & btype & in_size & in_location & in_content
        & Hcall & _ & _ & _ & _ & Hsafety & Hadmin & _).
  cbn [self billboard config] in *.
  assert (zone <> PROHIBITED) as Hallowed.
  { intros ->. apply Hzone. symmetry. exact (Zone_call_inverts _ Hcall). }
  destruct (default_config_papers_rules btype Hallowed) as [Hsafe Hadm].
  rewrite Hsafe in Hsafety. rewrite Hadm in Hadmin.
  split.
  - destruct (py_not (structural_certificate_id b)) eqn:Hcert; [ | reflexivity].
    unfold _check_safety in Hsafety. cbn in Hsafety. rewrite Hcert in Hsafety.
    discriminate.
  - apply (administrative_loop_returns b now _ []) in Hadmin
      as [Hnil | [Hexpired Hpermit]]; [discriminate | ].
    split; [ | exact Hexpired].
    cbn in Hpermit. rewrite orb_false_r in Hpermit. exact Hpermit.
Qed.

Lemma default_config_verdict_requires_papers_witness :
  py_not (structural_certificate_id compliant_billboard) = false /\
  py_not (permit_number compliant_billboard) = false /\
  permit_expired compliant_billboard (day (noon 19000)) = inr false.
Proof.
  apply (@default_config_verdict_requires_papers compliant_billboard []
           (noon 19000) []
           {| is_compliant := true; violations := [];
              checked_at := noon 19000; billboard_id := "1" |}).
  - reflexivity.
  - discriminate.
Defined.

Lemma get_applicable_rules_selects_witness :
  In (shared_zone_size_rule "SIZE-IND-001" [COMMERCIAL; INDUSTRIAL])
     (size (get_applicable_rules overlapping_size_config INDUSTRIAL GANTRY)).
Proof.
  apply (proj1 (get_applicable_rules_selects overlapping_size_config
                  INDUSTRIAL GANTRY)).
  split; [ | split].
  - right. left. reflexivity.
  - right. left. reflexivity.
  - right. left. reflexivity.
Defined.

(** ** Exceptions of the category checks *)

(** An exception that ends a loop was raised by its body. *)
Lemma for_each_raised_by_body {A S} (P : exn -> Prop) (body : A -> S -> py S)
    (xs : list A) :
  (forall x s e, In x xs -> body x s = inl e -> P e) ->
  forall s e, for_each xs body s = inl e -> P e.
Proof.
  induction xs as [ | x xs' IH]; intros Hbody s e; cbn [for_each];
    [discriminate | ].
  destruct (body x s) as [e' | s'] eqn:Hx.
  - cbn. intros [= <-]. exact (Hbody x s e' (or_introl eq_refl) Hx).
  - rewrite bind_inr. apply IH. intros y t e' Hy. apply Hbody. right. exact Hy.
Qed.

Lemma py_get_error_kind (receiver : pyval) (k : string) (default : pyval) (e : exn) :
  py_get receiver k default = inl e -> is_classification_error e = false.
Proof. destruct receiver; cbn; try discriminate; intros [= <-]; reflexivity. Qed.

Lemma py_lt_float_error_kind (v : pyval) (bound : float) (e : exn) :
  py_lt_float v bound = inl e -> is_classification_error e = false.
Proof. destruct v; cbn; try discriminate; intros [= <-]; reflexivity. Qed.

Lemma py_in_error_kind (tag : string) (container : pyval) (e : exn) :
  py_in tag container = inl e -> is_classification_error e = false.
Proof. destruct container; cbn; try discriminate; intros [= <-]; reflexivity. Qed.

Lemma check_location_error_kind (billboard : Billboard)
    (report_data : list (string * pyval)) (rules : list LocationRestriction)
    (e : exn) :
  _check_location billboard report_data rules = inl e ->
  is_classification_error e = false.
Proof.
  unfold _check_location.
  apply (for_each_raised_by_body (fun e => is_classification_error e = false)).
  intros rule acc e' _.
  destruct (lookup "location" report_data) as [loc | ]; [ | discriminate].
  destruct (py_get loc "distance_from_intersection" (PFloat infinity))
    as [e1 | distance] eqn:Hget.
  - cbn. intros [= <-]. exact (py_get_error_kind _ _ _ Hget).
  - rewrite bind_inr.
    destruct (py_lt_float distance (min_distance_from_intersection rule))
      as [e2 | too_close] eqn:Hlt.
    + cbn. intros [= <-]. exact (py_lt_float_error_kind _ _ Hlt).
    + rewrite bind_inr, create_violation_location.
      destruct too_close; discriminate.
Qed.

Lemma check_content_error_kind (billboard : Billboard)
    (report_data : list (string * pyval)) (rules : list ContentRestriction)
    (e : exn) :
  _check_content billboard report_data rules = inl e ->
  is_classification_error e = false.
Proof.
  unfold _check_content.
  destruct (lookup "content_analysis" report_data) as [content | ];
    [ | discriminate].
  apply (for_each_raised_by_body (fun e => is_classification_error e = false)).
  intros rule acc e' _.
  apply (for_each_raised_by_body (fun e => is_classification_error e = false)).
  intros tag acc' e'' _.
  destruct (py_get content "detected_content" (PDict [])) as [e1 | detected] eqn:Hget.
  - cbn. intros [= <-]. exact (py_get_error_kind _ _ _ Hget).
  - rewrite bind_inr.
    destruct (py_in tag detected) as [e2 | found] eqn:Hin.
    + cbn. intros [= <-]. exact (py_in_error_kind _ _ Hin).
    + rewrite bind_inr, create_violation_content. destruct found; discriminate.
Qed.

Lemma check_safety_error_kind (billboard : Billboard)
    (rules : list SafetyRequirement) (e : exn) :
  _check_safety billboard rules = inl e -> is_classification_error e = false.
Proof.
  change (_check_safety billboard rules)
    with (for_each rules
            (fun rule violations =>
               append_if (lacks_certificate billboard rule)
                 (inl SAFETY_VIOLATION_missing) violations) []).
  rewrite raising_loop_outcome.
  destruct (existsb (lacks_certificate billboard) rules); [ | discriminate].
  intros [= <-]. reflexivity.
Qed.

Lemma check_administrative_error_kind (billboard : Billboard)
    (rules : list AdministrativeRequirement) (now : datetime) (e : exn) :
  _check_administrative billboard rules now = inl e ->
  is_classification_error e = false.
Proof.
  intros Hraised.
  destruct (@administrative_loop_raises billboard now rules [] e Hraised) as [-> | ->];
    reflexivity.
Qed.

(** C10. Classification at the entry point ignores case. For every
    billboard whose zone and type strings lower to the values of a zone and
    of a billboard type, both enumeration lookups succeed with these
    members and the evaluation accepts the billboard: it runs the five
    checks on the rules selected for that zone and type; when they return
    it returns the result made of their lists, and when it raises, the
    exception is the one of the first check that raises, never the
    [ValueError] of a classification. The call has the same outcome as on
    the billboard that carries the two lower-case values themselves. *)
Theorem classification_ignores_case
    (report_data : list (string * pyval)) (now : datetime) (o : Objects)
    (zone : ZoneType) (btype : BillboardType) :
  Str.lower (zone_type (billboard o)) = Zone.value zone ->
  Str.lower (billboard_type (billboard o)) = BType.value btype ->
  let rules := get_applicable_rules (config (self o)) zone btype in
  Zone.call (Str.lower (zone_type (billboard o))) = inr zone /\
  BType.call (Str.lower (billboard_type (billboard o))) = inr btype /\
  (forall in_size in_location in_content,
      _check_size (billboard o) (size rules) = inr in_size ->
      _check_location (billboard o) report_data (location rules) = inr in_location ->
      _check_content (billboard o) report_data (content rules) = inr in_content ->
      _check_safety (billboard o) (safety rules) = inr [] ->
      _check_administrative (billboard o) (administrative rules) now = inr [] ->
      check_billboard_compliance report_data now o =
      (o, inr {| is_compliant :=
                   (length (in_size ++ in_location ++ in_content) =? 0)%nat;
                 violations := in_size ++ in_location ++ in_content;
                 checked_at := now;
                 billboard_id := Str.of_int (id (billboard o)) |})) /\
  (forall e,
      snd (check_billboard_compliance report_data now o) = inl e ->
      is_classification_error e = false /\
      first_raised (category_outcomes (billboard o) report_data now rules) = Some e) /\
  snd (check_billboard_compliance report_data now o) =
  snd (check_billboard_compliance report_data now
         (with_billboard o
            (reclassified (billboard o) (Zone.value zone) (BType.value btype)))).
Proof.
  intros Hzone Hbtype rules.
  assert (Zone.call (Str.lower (zone_type (billboard o))) = inr zone) as Hz
    by (rewrite Hzone; apply Zone_call_value).
  assert (BType.call (Str.lower (billboard_type (billboard o))) = inr btype) as Hb
    by (rewrite Hbtype; apply BType_call_value).
  split; [exact Hz | ]. split; [exact Hb | ]. split; [ | split].
  - intros in_size in_location in_content Hsize Hlocation Hcontent Hsafety Hadmin.
    unfold check_billboard_compliance, check_billboard_compliance_try.
    rewrite Hz, bind_inr, Hb, bind_inr. cbv zeta. fold rules.
    rewrite Hsize, bind_inr, Hlocation, bind_inr, Hcontent, bind_inr.
    rewrite Hsafety, bind_inr, Hadmin, bind_inr.
    rewrite !app_nil_r, <- app_assoc. reflexivity.
  - intros e. unfold check_billboard_compliance, check_billboard_compliance_try.
    rewrite Hz, bind_inr, Hb, bind_inr. cbv zeta. fold rules.
    unfold category_outcomes.
    destruct (_check_size (billboard o) (size rules)) as [e1 | v1] eqn:H1.
    { rewrite check_size_returns in H1. discriminate. }
    rewrite bind_inr.
    destruct (_check_location (billboard o) report_data (location rules))
      as [e2 | v2] eqn:H2.
    { cbn. intros [= <-]. split; [ | reflexivity].
      exact (check_location_error_kind _ _ _ H2). }
    rewrite bind_inr.
    destruct (_check_content (billboard o) report_data (content rules))
      as [e3 | v3] eqn:H3.
    { cbn. intros [= <-]. split; [ | reflexivity].
      exact (check_content_error_kind _ _ _ H3). }
    rewrite bind_inr.
    destruct (_check_safety (billboard o) (safety rules)) as [e4 | v4] eqn:H4.
    { cbn. intros [= <-]. split; [ | reflexivity].
      exact (check_safety_error_kind _ _ H4). }
    rewrite bind_inr.
    destruct (_check_administrative (billboard o) (administrative rules) now)
      as [e5 | v5] eqn:H5.
    { cbn. intros [= <-]. split; [ | reflexivity].
      exact (check_administrative_error_kind _ _ _ H5). }
    cbn. discriminate.
  - unfold check_billboard_compliance, check_billboard_compliance_try.
    cbn [with_billboard self billboard reclassified zone_type billboard_type].
    rewrite Hzone, Hbtype, Zone_value_lower, BType_value_lower.
    rewrite Zone_call_value, BType_call_value, !bind_inr. cbv zeta. fold rules.
    change (_check_size
              (reclassified (billboard o) (Zone.value zone) (BType.value btype)))
      with (_check_size (billboard o)).
    change (_check_location
              (reclassified (billboard o) (Zone.value zone) (BType.value btype)))
      with (_check_location (billboard o)).
    change (_check_content
              (reclassified (billboard o) (Zone.value zone) (BType.value btype)))
      with (_check_content (billboard o)).
    change (_check_safety
              (reclassified (billboard o) (Zone.value zone) (BType.value btype)))
      with (_check_safety (billboard o)).
    change (_check_administrative
              (reclassified (billboard o) (Zone.value zone) (BType.value btype)))
      with (_check_administrative (billboard o)).
    destruct (_check_size (billboard o) (size rules)) as [e | v1];
      [reflexivity | rewrite !bind_inr].
    destruct (_check_location (billboard o) report_data (location rules))
      as [e | v2]; [reflexivity | rewrite !bind_inr].
    destruct (_check_content (billboard o) report_data (content rules))
      as [e | v3]; [reflexivity | rewrite !bind_inr].
    destruct (_check_safety (billboard o) (safety rules)) as [e | v4];
      [reflexivity | rewrite !bind_inr].
    destruct (_check_administrative (billboard o) (administrative rules) now)
      as [e | v5]; reflexivity.
Qed.

Lemma classification_ignores_case_witness :
  let o := {| self := default_checker; billboard := oversized_billboard |} in
  check_billboard_compliance full_report (noon 19000) o = (o, inr full_report_result) /\
  snd (check_billboard_compliance full_report (noon 19000) o) =
  snd (check_billboard_compliance full_report (noon 19000)
         (with_billboard o (reclassified (billboard o) "commercial" "gantry"))).
Proof.
  cbv zeta.
  pose proof (@classification_ignores_case full_report (noon 19000)
                {| self := default_checker; billboard := oversized_billboard |}
                COMMERCIAL GANTRY eq_refl eq_refl)
    as (_ & _ & Haccepted & _ & Hsame).
  split; [ | exact Hsame].
  apply (Haccepted [width_finding] [intersection_finding] [hate_speech_finding]);
    reflexivity.
Defined.
